(** * ctc-asr: utility layer ([asr/util/storage.py], [asr/util/tf_contrib.py])

    A shallow embedding of the helper functions of the speech-recognition
    pipeline, and the properties of them that the specification states.

    Python code that raises, mutates the file system or adds nodes to the
    TensorFlow default graph is written in a state-and-exception monad
    [py S]: a computation takes the current state and gives back an
    [outcome] (a returned value or a raised exception) with the new state.
    Side effects done before an exception is raised stay in the state, as
    in Python. *)

From Stdlib Require Import ZArith QArith Lia Lqa List Ascii.
From stdpp Require Import base gmap strings list fin_maps pretty.
From Equations Require Import Equations.

Open Scope Z_scope.

(** ** The Python runtime *)

Module Py.

(** The exception classes the modelled code raises or catches.
    [RuntimeError] carries its [__cause__], set by [raise ... from ...]. *)
#[warnings="-register-all"]
Inductive exn : Type :=
| ValueError (msg : string)
| IndexError (msg : string)
| TypeError (msg : string)
| OSError (msg : string)
| InvalidArgumentError (msg : string)
| RuntimeError (arg : string) (cause : option exn).

Inductive outcome (A : Type) : Type :=
| Return (a : A)
| Raise (e : exn).
Arguments Return {A} a.
Arguments Raise {A} e.

Definition py (S A : Type) : Type := S -> outcome A * S.

Definition ret {S A} (a : A) : py S A := fun s => (Return a, s).

Definition raise {S A} (e : exn) : py S A := fun s => (Raise e, s).

Definition bind {S A B} (m : py S A) (k : A -> py S B) : py S B :=
  fun s =>
    match m s with
    | (Return a, s') => k a s'
    | (Raise e, s') => (Raise e, s')
    end.

(** [try: body / except <classes> as e: handler e]: an exception of
    [body] that [catches] accepts runs the handler in the state the body
    left; any other exception goes on. *)
Definition try_except {S A} (body : py S A) (catches : exn -> bool)
    (handler : exn -> py S A) : py S A :=
  fun s =>
    match body s with
    | (Return a, s') => (Return a, s')
    | (Raise e, s') => if catches e then handler e s' else (Raise e, s')
    end.

Definition get {S} : py S S := fun s => (Return s, s).

Definition modify {S} (f : S -> S) : py S unit := fun s => (Return tt, f s).

(** A pure computation that may raise, run inside [py]. *)
Definition lift {S A} (o : outcome A) : py S A := fun s => (o, s).

Definition is_OSError (e : exn) : bool :=
  match e with OSError _ => true | _ => false end.

Definition is_ValueError (e : exn) : bool :=
  match e with ValueError _ => true | _ => false end.

Definition is_TypeError (e : exn) : bool :=
  match e with TypeError _ => true | _ => false end.

(** [range(n)]: empty when [n] is not positive. *)
Definition range (n : Z) : list Z := map Z.of_nat (seq 0 (Z.to_nat n)).

(** [l[-1]] *)
Definition index_last {A} (l : list A) : outcome A :=
  match last l with
  | Some x => Return x
  | None => Raise (IndexError "list index out of range")
  end.

(** [l[i]] for [i >= 0] *)
Definition index {A} (l : list A) (i : nat) : outcome A :=
  match l !! i with
  | Some x => Return x
  | None => Raise (IndexError "list index out of range")
  end.

(** [zip(a, b, c)]: stops at the shortest argument. *)
Fixpoint zip3 {A B C} (a : list A) (b : list B) (c : list C)
    : list (A * B * C) :=
  match a, b, c with
  | x :: a', y :: b', z :: c' => (x, y, z) :: zip3 a' b' c'
  | _, _, _ => []
  end.

(** [sorted(l, key=key)] with integer keys: a stable insertion sort, so
    that elements with equal keys keep their order, as in Python. *)
Fixpoint insert_by {A} (key : A -> Z) (x : A) (l : list A) : list A :=
  match l with
  | [] => [x]
  | y :: l' => if key y <=? key x then y :: insert_by key x l'
               else x :: y :: l'
  end.

Definition sorted {A} (key : A -> Z) (l : list A) : list A :=
  fold_left (fun acc x => insert_by key x acc) l [].

(** The built-ins [max(a, b)] and [min(a, b)] on numbers: the first
    argument is kept unless the second is strictly greater (smaller). *)
Definition max (a b : Q) : Q := if Qlt_le_dec a b then b else a.
Definition min (a b : Q) : Q := if Qlt_le_dec b a then b else a.

End Py.

Import Py.

Declare Scope py_scope.
Delimit Scope py_scope with py.
Notation "x <- m ;; k" := (bind m (fun x => k))
  (at level 100, m at next level, right associativity) : py_scope.
Notation "m ;;; k" := (bind m (fun _ => k))
  (at level 100, right associativity) : py_scope.
Open Scope py_scope.

(** ** asr/util/storage.py *)

Module Storage.

(** *** Version control

    [Repo('.', search_parent_directories=True)] reads the repository
    the process runs in; that repository is the state of the
    computation. A detached HEAD has no branch reference. *)

Record Commit : Type := { hexsha : string; committed_datetime : Z }.

Record TagReference : Type := { tag_name : string; tag_commit : Commit }.

Record Head : Type := { head_name : string }.

Record Repo : Type := {
  head_object : Commit;
  head_reference : option Head;
  tags : list TagReference
}.

Definition open_repo : py Repo Repo := get.

(** GitPython's [Repo.active_branch] raises [TypeError] when HEAD is
    detached. *)
Definition active_branch (repo : Repo) : py Repo Head :=
  match head_reference repo with
  | Some h => ret h
  | None => raise (TypeError "HEAD is a detached symbolic reference")
  end.

Definition git_revision_hash : py Repo string :=
  repo <- open_repo ;;
  ret (hexsha (head_object repo)).

Definition git_branch : py Repo string :=
  repo <- open_repo ;;
  try_except
    (b <- active_branch repo ;; ret (head_name b))
    is_TypeError
    (fun _ => ret "DETACHED HEAD").

Definition git_latest_tag : py Repo string :=
  repo <- open_repo ;;
  let tags := sorted (fun t => committed_datetime (tag_commit t)) (tags repo) in
  t <- lift (index_last tags) ;;
  ret (tag_name t).

(** *** The file system

    A path names a regular file, a directory, or nothing. [faults] is
    what the operating system will do to the coming deletion calls, one
    entry per call: [Some e] makes the call raise [e] and change
    nothing, [None] (or no entry) lets it act on the tree. [trace]
    records the deletion attempts, the printed lines and the sleeps, in
    order. *)

Inductive node : Type := File | Directory.

Inductive event : Type :=
| EvRemove (path : string)
| EvRmtree (path : string)
| EvPrint (line : string)
| EvSleep (seconds : Z).

Record world : Type := {
  fs : gmap string node;
  faults : list (option exn);
  trace : list event
}.

Definition emit (ev : event) : py world unit :=
  modify (fun w => {| fs := fs w; faults := faults w; trace := trace w ++ [ev] |}).

Definition next_fault : py world (option exn) :=
  fun w =>
    match faults w with
    | [] => (Return None, w)
    | f :: rest => (Return f, {| fs := fs w; faults := rest; trace := trace w |})
    end.

Definition os_path_exists (path : string) : py world bool :=
  w <- get ;;
  ret (match fs w !! path with Some _ => true | None => false end).

Definition os_path_isfile (path : string) : py world bool :=
  w <- get ;;
  ret (match fs w !! path with Some File => true | _ => false end).

Definition os_path_isdir (path : string) : py world bool :=
  w <- get ;;
  ret (match fs w !! path with Some Directory => true | _ => false end).

(** [os.remove(path)] *)
Definition os_remove (path : string) : py world unit :=
  emit (EvRemove path) ;;;
  f <- next_fault ;;
  match f with
  | Some e => raise e
  | None =>
      w <- get ;;
      match fs w !! path with
      | Some File =>
          modify (fun w => {| fs := delete path (fs w); faults := faults w;
                              trace := trace w |})
      | Some Directory => raise (OSError "IsADirectoryError")
      | None => raise (OSError "FileNotFoundError")
      end
  end.

Definition under (path p : string) : bool :=
  bool_decide (p = path) || String.prefix (path +:+ "/") p.

(** [shutil.rmtree(path)]: the directory and everything below it. *)
Definition shutil_rmtree (path : string) : py world unit :=
  emit (EvRmtree path) ;;;
  f <- next_fault ;;
  match f with
  | Some e => raise e
  | None =>
      w <- get ;;
      match fs w !! path with
      | Some Directory =>
          modify (fun w => {| fs := filter (fun kv => under path (fst kv) = false) (fs w);
                              faults := faults w; trace := trace w |})
      | Some File => raise (OSError "NotADirectoryError")
      | None => raise (OSError "FileNotFoundError")
      end
  end.

Definition print (line : string) : py world unit := emit (EvPrint line).

Definition time_sleep (seconds : Z) : py world unit := emit (EvSleep seconds).

(** The body of [for i in range(5)], one iteration per element of [idxs];
    [break] ends the loop with the remaining indices unused. *)
Fixpoint delete_file_loop (path : string) (idxs : list Z) : py world unit :=
  match idxs with
  | [] => ret tt
  | i :: rest =>
      try_except
        (os_remove path)
        (fun e => is_OSError e || is_ValueError e)
        (fun exception =>
           print ("WARN: Error deleting (" +:+ pretty i +:+ "/5) file: " +:+ path) ;;;
           (if i =? 4 then raise (RuntimeError path (Some exception))
            else
              time_sleep 1 ;;;
              delete_file_loop path rest))
  end.

Definition delete_file_if_exists (path : string) : py world unit :=
  e <- os_path_exists path ;;
  f <- (if e then os_path_isfile path else ret false) ;;
  if f then delete_file_loop path (range 5) else ret tt.

Definition delete_directory_if_exists (path : string) : py world unit :=
  e <- os_path_exists path ;;
  d <- (if e then os_path_isdir path else ret false) ;;
  if d then
    try_except (shutil_rmtree path) is_OSError (fun exception => raise exception)
  else ret tt.

(** *** Reading a trace *)

(** The number of deletion attempts among some events. *)
Fixpoint removals (evs : list event) : nat :=
  match evs with
  | [] => O
  | EvRemove _ :: evs' => S (removals evs')
  | _ :: evs' => removals evs'
  end.

(** The sleeps among some events, in order. *)
Fixpoint sleeps (evs : list event) : list Z :=
  match evs with
  | [] => []
  | EvSleep s :: evs' => s :: sleeps evs'
  | _ :: evs' => sleeps evs'
  end.

(** The line printed when attempt [i] fails. *)
Definition warning (i : Z) (path : string) : event :=
  EvPrint ("WARN: Error deleting (" +:+ pretty i +:+ "/5) file: " +:+ path).

(** *** Sample states *)

(** A checkpoint file that the operating system keeps refusing to
    remove, next to a data directory. *)
Definition locked_world : world :=
  {| fs := {[ "train/model.ckpt" := File; "train/data" := Directory ]};
     faults := [Some (OSError "busy"); Some (OSError "busy"); Some (ValueError "path");
                Some (OSError "busy"); Some (OSError "still busy")];
     trace := [] |}.

(** A repository checked out at a commit, with no branch and no tag. *)
Definition bare_checkout : Repo :=
  {| head_object := {| hexsha := "9fceb02"; committed_datetime := 1530000000 |};
     head_reference := None;
     tags := [] |}.

(** A repository on a branch, with three tags; the two newest carry the
    same commit date. *)
Definition tagged_repo : Repo :=
  {| head_object := {| hexsha := "41a95d9"; committed_datetime := 1540000000 |};
     head_reference := Some {| head_name := "master" |};
     tags := [ {| tag_name := "v0.2";
                  tag_commit := {| hexsha := "77d0c1e"; committed_datetime := 1530000000 |} |};
               {| tag_name := "v0.1";
                  tag_commit := {| hexsha := "0be5a21"; committed_datetime := 1520000000 |} |};
               {| tag_name := "v0.2-rc";
                  tag_commit := {| hexsha := "77d0c1e"; committed_datetime := 1530000000 |} |} ] |}.

(** A checkpoint directory with two files, next to a log file; the
    first two deletion calls will fail, the third will go through. *)
Definition flaky_world : world :=
  {| fs := {[ "train" := Directory; "train/model.ckpt" := File;
              "train/checkpoint" := File; "train.log" := File ]};
     faults := [Some (OSError "busy"); Some (ValueError "embedded null byte"); None];
     trace := [] |}.

(** The same tree when the operating system refuses with an error that
    is neither an [OSError] nor a [ValueError]. *)
Definition hostile_world : world :=
  {| fs := fs flaky_world; faults := [Some (TypeError "remove: path should be string")];
     trace := [] |}.

(** The same tree with no failure pending. *)
Definition calm_world : world :=
  {| fs := fs flaky_world; faults := []; trace := [] |}.

(** The events of [n] failed attempts numbered from [i]: each is a
    removal call, a warning and a sleep of one second. *)
Fixpoint failed_attempts (path : string) (i : Z) (n : nat) : list event :=
  match n with
  | O => []
  | S n' => [EvRemove path; warning i path; EvSleep 1]
            ++ failed_attempts path (i + 1) n'
  end.

(** *** Checkpoint directories

    [tf.gfile] works on the same tree. TensorFlow reports a failed file
    operation with an exception of its own ([tf.errors.OpError]), which
    is not among the classes of [exn]: [op_error] stands for it. *)

(** The directories above [path]: its proper prefixes that end just
    before a '/'. *)
Fixpoint parents_from (pre s : string) : list string :=
  match s with
  | EmptyString => []
  | String c s' =>
      (if Ascii.eqb c "/"%char then (if String.eqb pre "" then [] else [pre]) else [])
      ++ parents_from (pre +:+ String c "") s'
  end.

Definition parents (path : string) : list string := parents_from "" path.

Section Gfile.

Variable op_error : string -> exn.

(** [tf.gfile.Exists(path)] *)
Definition tf_gfile_Exists (path : string) : py world bool :=
  w <- get ;;
  ret (match fs w !! path with Some _ => true | None => false end).

(** [tf.gfile.DeleteRecursively(path)]: a deletion call; it removes the
    file or directory [path] and everything below it. A call that raises
    is rendered as having removed nothing: what the real call may already
    have removed below [path] when it fails is not modelled, and nothing
    below is stated about it. *)
Definition tf_gfile_DeleteRecursively (path : string) : py world unit :=
  emit (EvRmtree path) ;;;
  f <- next_fault ;;
  match f with
  | Some e => raise e
  | None =>
      w <- get ;;
      match fs w !! path with
      | Some _ =>
          modify (fun w => {| fs := filter (fun kv => under path (fst kv) = false) (fs w);
                              faults := faults w; trace := trace w |})
      | None => raise (op_error "NotFoundError")
      end
  end.

(** Creating the missing directories among [paths], outermost first; a
    regular file in the way stops it. *)
Fixpoint make_dirs (paths : list string) : py world unit :=
  match paths with
  | [] => ret tt
  | p :: rest =>
      w <- get ;;
      match fs w !! p with
      | Some Directory => make_dirs rest
      | Some File => raise (op_error "FailedPreconditionError")
      | None =>
          modify (fun w => {| fs := <[p := Directory]> (fs w); faults := faults w;
                              trace := trace w |}) ;;;
          make_dirs rest
      end
  end.

(** [tf.gfile.MakeDirs(path)]: nothing to do when [path] exists;
    otherwise [path] is created with the directories above it that are
    missing. *)
Definition tf_gfile_MakeDirs (path : string) : py world unit :=
  w <- get ;;
  match fs w !! path with
  | Some _ => ret tt
  | None => make_dirs (parents path ++ [path])
  end.

Definition maybe_delete_checkpoints (path : string) (delete : bool) : py world unit :=
  e <- tf_gfile_Exists path ;;
  if e && delete then
    print ("Deleting old checkpoint data from: " +:+ path) ;;;
    tf_gfile_DeleteRecursively path ;;;
    tf_gfile_MakeDirs path
  else
    e <- tf_gfile_Exists path ;;
    if e && negb delete then
      print ("Found old checkpoint data at: " +:+ path)
    else
      print ("Starting a new training run in: " +:+ path) ;;;
      tf_gfile_MakeDirs path.

End Gfile.

(** *** Checksums

    [md5] reads the bytes of a regular file; the files it can see are a
    map from paths to entries. An open binary file is the sequence of
    bytes not read yet. *)

Inductive entry : Type :=
| RegularFile (content : list Byte.byte)
| Folder.

(** [open(file_path, 'rb')] *)
Definition open_rb (file_path : string) : py (gmap string entry) (list Byte.byte) :=
  d <- get ;;
  match d !! file_path with
  | Some (RegularFile content) => ret content
  | Some Folder => raise (OSError "IsADirectoryError")
  | None => raise (OSError "FileNotFoundError")
  end.

(** [file_handle.read(n)]: the next [n] bytes, fewer at the end of the
    file, and the handle moved past them. *)
Definition read (n : nat) (file_handle : list Byte.byte)
    : list Byte.byte * list Byte.byte :=
  (take n file_handle, drop n file_handle).

Definition inspect {A : Type} (a : A) : {b : A | a = b} := exist _ a eq_refl.

Section Md5.

(** [hashlib]: a hash object is a state that [update] feeds bytes to
    and [hexdigest] renders. *)
Context {hash_state : Type}.
Variable hashlib_md5 : hash_state.
Variable update : hash_state -> list Byte.byte -> hash_state.
Variable hexdigest : hash_state -> string.

(** [for chunk in iter(lambda: file_handle.read(4096), b''): hash_md5.update(chunk)] *)
Equations? update_chunks (hash_md5 : hash_state) (file_handle : list Byte.byte)
    : hash_state by wf (length file_handle) lt :=
  update_chunks hash_md5 file_handle with inspect (read 4096 file_handle) := {
    | exist _ ([], _) _ := hash_md5
    | exist _ (b :: chunk, rest) _ :=
        update_chunks (update hash_md5 (b :: chunk)) rest }.
Proof.
  rewrite length_drop. destruct file_handle; [discriminate | cbn [length]; lia].
Qed.

Definition md5 (file_path : string) : py (gmap string entry) string :=
  let hash_md5 := hashlib_md5 in
  file_handle <- open_rb file_path ;;
  ret (hexdigest (update_chunks hash_md5 file_handle)).

End Md5.

(** A stand-in hash for examples: the sum of the bytes read. *)
Definition byte_sum (h : N) (bytes : list Byte.byte) : N :=
  fold_left (fun acc b => (acc + Byte.to_N b)%N) bytes h.

Definition sample_disk : gmap string entry :=
  {[ "data/corpus.json" := RegularFile [Byte.x7b; Byte.x22; Byte.x61; Byte.x22;
                                        Byte.x3a; Byte.x31; Byte.x7d];
     "data" := Folder ]}.

End Storage.

(** ** asr/util/tf_contrib.py *)

Module TfContrib.

(** *** The default graph

    TensorFlow calls add nodes to the default graph and may register
    tensors in its named collections ([tf.add_to_collection],
    [tf.summary.*]) and variables in its variable store. [ops] lists the
    types of the operations built so far, oldest first. *)

Inductive Tensor : Type :=
| Const (q : Q)
| Named (name : string)
| VarRead (name : string)
| Sub (a b : Tensor)
| Add (a b : Tensor)
| Mul (a b : Tensor)
| Div (a b : Tensor)
| Pow (a b : Tensor)
| Sqrt (a : Tensor)
| L2Loss (a : Tensor)
| HistogramSummary (tag : string) (values : Tensor)
| ScalarSummary (tag : string) (value : Tensor).

Inductive Initializer : Type :=
| truncated_normal_initializer (stddev : Q) (dtype : string)
| glorot_normal_initializer.

Record TfVariable : Type := {
  var_name : string;
  var_shape : list Z;
  var_initializer : Initializer;
  var_dtype : string;
  var_device : string
}.

Record Graph : Type := {
  ops : list string;
  collections : gmap string (list Tensor);
  variables : gmap string TfVariable
}.

Definition empty_graph : Graph :=
  {| ops := []; collections := ∅; variables := ∅ |}.

Definition get_collection (name : string) (g : Graph) : list Tensor :=
  default [] (collections g !! name).

Definition build (op : string) : py Graph unit :=
  modify (fun g => {| ops := ops g ++ [op]; collections := collections g;
                      variables := variables g |}).

(** [tf.add_to_collection(name, value)] *)
Definition tf_add_to_collection (name : string) (value : Tensor) : py Graph unit :=
  modify (fun g => {| ops := ops g;
                      collections := <[name := get_collection name g ++ [value]]> (collections g);
                      variables := variables g |}).

(** *** Feature tensors, by shape

    The convolution stack is followed on the run-time shape of its
    tensors: [tf.shape(t)] is the list of the dimension sizes of [t]. An
    operation that refuses these sizes raises where it stands, as under
    eager execution; when a graph is built first, the same refusal
    surfaces when the graph is run. *)

Definition Shape : Type := list Z.

Definition num_elements (s : Shape) : Z := fold_right Z.mul 1 s.

(** Output size of one spatial axis under ['SAME'] padding:
    the input size divided by the stride, rounded up. *)
Definition same_out (size stride : Z) : Z := (size + stride - 1) / stride.

(** The size an axis is left with after a stack of layers with the given
    strides along it. *)
Fixpoint reduce_axis (size : Z) (strides : list Z) : Z :=
  match strides with
  | [] => size
  | s :: rest => reduce_axis (same_out size s) rest
  end.

(** The formula of the docstring of [conv_layers] for the same size:
    [W = (W_i - K_w + 2*(K_w//2)) // S_w + 1]. *)
Definition docstring_same_out (w_i k_w s_w : Z) : Z :=
  (w_i - k_w + 2 * (k_w / 2)) / s_w + 1.

Definition layer_args_ok (filters : Z) (kernel_size strides : Z * Z) : bool :=
  (0 <? filters) && (0 <? fst kernel_size) && (0 <? snd kernel_size)
  && (0 <? fst strides) && (0 <? snd strides).

(** One element of [zip(filters, kernel_sizes, strides)] that
    [tf.layers.conv2d] accepts. *)
Definition layer_ok (l : Z * (Z * Z) * (Z * Z)) : Prop :=
  layer_args_ok (fst (fst l)) (snd (fst l)) (snd l) = true.

(** [tf.layers.conv2d(inputs, filters, kernel_size, strides, padding='SAME', ...)]
    on a [batch, height, width, channels] input. *)
Definition tf_layers_conv2d (inputs : Shape) (filters : Z)
    (kernel_size strides : Z * Z) : py Graph Shape :=
  match inputs with
  | [b; h; w; c] =>
      if layer_args_ok filters kernel_size strides then
        build "Conv2D" ;;;
        ret [b; same_out h (fst strides); same_out w (snd strides); filters]
      else raise (ValueError "conv2d: invalid filters, kernel_size or strides")
  | _ => raise (ValueError "conv2d: input must be 4-dimensional")
  end.

(** [tf.minimum(x, y)] with a scalar [y]: element-wise, same shape. *)
Definition tf_minimum (x : Shape) (y : Q) : py Graph Shape :=
  build "Minimum" ;;; ret x.

(** [tf.layers.dropout(inputs, rate, training)]: same shape. *)
Definition tf_layers_dropout (inputs : Shape) (rate : Q) (training : bool)
    : py Graph Shape :=
  build "Dropout" ;;; ret inputs.

(** [tf.shape(t)[i]] *)
Definition tf_shape_at (t : Shape) (i : nat) : py Graph Z :=
  build "Shape" ;;;
  match t !! i with
  | Some d => build "StridedSlice" ;;; ret d
  | None => raise (ValueError "slice index out of bounds")
  end.

Definition count_unknown (sizes : list Z) : nat :=
  length (filter (fun d => d = -1) sizes).

(** The shape [tf.reshape(t, sizes)] gives to a tensor of shape [input]:
    at most one entry of [sizes] is [-1] and is then inferred from the
    number of elements, which the other entries must divide; none may be
    below [-1]; the inference is refused when the other entries multiply
    to zero. *)
Definition reshape_shape (input : Shape) (sizes : list Z) : outcome Shape :=
  if existsb (fun d => d <? -1) sizes then
    Raise (InvalidArgumentError "reshape: size must be non-negative")
  else
    match count_unknown sizes with
    | O =>
        if num_elements sizes =? num_elements input then Return sizes
        else Raise (InvalidArgumentError "reshape: number of elements differs")
    | S O =>
        let product := num_elements (filter (fun d => d ≠ -1) sizes) in
        if product <=? 0 then
          Raise (InvalidArgumentError "reshape: cannot infer the missing size")
        else
          let missing := num_elements input / product in
          if product * missing =? num_elements input then
            Return (map (fun d => if d =? -1 then missing else d) sizes)
          else Raise (InvalidArgumentError "reshape: not a multiple of the requested shape")
    | _ => Raise (InvalidArgumentError "reshape: only one size may be -1")
    end.

Definition tf_reshape (t : Shape) (sizes : list Z) : py Graph Shape :=
  build "Reshape" ;;; lift (reshape_shape t sizes).

(** [tf.tile(input, multiples)] on a vector: [multiples] has one entry,
    the number of copies laid end to end. *)
Definition tf_tile (input : list Z) (multiples : list Z) : py Graph (list Z) :=
  match multiples with
  | [n] =>
      if n <? 0 then raise (InvalidArgumentError "tile: negative multiple")
      else build "Tile" ;;; ret (mjoin (replicate (Z.to_nat n) input))
  | _ => raise (InvalidArgumentError "tile: multiples must match the rank of input")
  end.

(** *** Symbolic scalars and their values

    Arithmetic on graph tensors builds one operation per operator and
    gives the tensor of the result. *)

Definition binop (op : string) (node : Tensor -> Tensor -> Tensor)
    (a b : Tensor) : py Graph Tensor :=
  build op ;;; ret (node a b).

Definition tf_sqrt (a : Tensor) : py Graph Tensor :=
  build "Sqrt" ;;; ret (Sqrt a).

(** [tf.nn.l2_loss(t)]: [sum(t ** 2) / 2]. *)
Definition tf_nn_l2_loss (t : Tensor) : py Graph Tensor :=
  build "L2Loss" ;;; ret (L2Loss t).

(** [tf.multiply(x, y, name=...)] *)
Definition tf_multiply (x y : Tensor) (name : string) : py Graph Tensor :=
  build "Mul" ;;; ret (Mul x y).

(** A Python value used as the operand of a tensor operator; [None]
    cannot be converted to a tensor. *)
Definition operand (o : option Tensor) : py Graph Tensor :=
  match o with
  | Some t => ret t
  | None => raise (ValueError "None values not supported.")
  end.

(** [tf.summary.histogram(name, values)] and [tf.summary.scalar(name, tensor)]
    build a summary operation and register it in the 'summaries'
    collection. *)
Definition tf_summary_histogram (name : string) (values : Tensor) : py Graph Tensor :=
  build "HistogramSummary" ;;;
  tf_add_to_collection "summaries" (HistogramSummary name values) ;;;
  ret (HistogramSummary name values).

Definition tf_summary_scalar (name : string) (tensor : Tensor) : py Graph Tensor :=
  build "ScalarSummary" ;;;
  tf_add_to_collection "summaries" (ScalarSummary name tensor) ;;;
  ret (ScalarSummary name tensor).

Definition sum_squares (entries : list Q) : Q :=
  fold_right (fun x acc => x * x + acc)%Q 0%Q entries.

(** The value of a scalar tensor when each variable holds the entries
    [env] gives it. Square roots, powers and summaries have no rational
    value and the value of [Named] tensors is not known here. *)
Fixpoint eval (env : string -> list Q) (t : Tensor) : option Q :=
  match t with
  | Const q => Some q
  | Sub a b => x ← eval env a; y ← eval env b; Some (x - y)%Q
  | Add a b => x ← eval env a; y ← eval env b; Some (x + y)%Q
  | Mul a b => x ← eval env a; y ← eval env b; Some (x * y)%Q
  | Div a b => x ← eval env a; y ← eval env b; Some (x / y)%Q
  | L2Loss (VarRead name) => Some (sum_squares (env name) / 2)%Q
  | _ => None
  end.

(** *** The module's parameters

    [FLAGS] and [TF_FLOAT] come from [asr.params]; the functions read
    the fields below. *)

Record Flags : Type := {
  conv_filters : list Z;
  relu_cutoff : Q;
  conv_dropout_rate : Q;
  random_seed : Z
}.

(** *** Recurrent cells *)

(** [clamp(x, lo, hi)] as the specification uses it: [x] when it lies
    between the bounds, else the bound it passed. *)
Definition clamp (x lo hi : Q) : Q :=
  if Qlt_le_dec x lo then lo else if Qlt_le_dec hi x then hi else x.

Record BasicRNNCell : Type := { num_units : Z; activation : string }.

Record DropoutWrapper : Type := {
  cell : BasicRNNCell;
  input_keep_prob : Q;
  output_keep_prob : Q;
  seed : Z
}.

(** A [tanh] cell of [units] units under a wrapper that keeps inputs and
    outputs with the same probability. *)
Definition wrapped_cell (units : Z) (keep_prob : Q) (seed : Z) : DropoutWrapper :=
  {| cell := {| num_units := units; activation := "tanh" |};
     input_keep_prob := keep_prob; output_keep_prob := keep_prob; seed := seed |}.

(** [tf.nn.rnn_cell.DropoutWrapper(cell, input_keep_prob, output_keep_prob, seed)]
    refuses a constant keep probability outside [0, 1]. *)
Definition tf_DropoutWrapper (c : BasicRNNCell) (input_keep_prob output_keep_prob : Q)
    (seed : Z) : outcome DropoutWrapper :=
  if forallb (fun p => Qle_bool 0 p && Qle_bool p 1) [input_keep_prob; output_keep_prob]
  then Return {| cell := c; input_keep_prob := input_keep_prob;
                 output_keep_prob := output_keep_prob; seed := seed |}
  else Raise (ValueError "Parameter keep_prob must be between 0 and 1").

(** Python's list comprehension [[f(x) for x in xs]] with a body that
    may raise. *)
Fixpoint comprehension {A B} (f : A -> outcome B) (xs : list A) : outcome (list B) :=
  match xs with
  | [] => Return []
  | x :: xs' =>
      match f x with
      | Return y =>
          match comprehension f xs' with
          | Return ys => Return (y :: ys)
          | Raise e => Raise e
          end
      | Raise e => Raise e
      end
  end.

Section Functions.

Variable FLAGS : Flags.
Variable TF_FLOAT : string.

(** The [for] loop of [conv_layers] over [zip(filters, kernel_sizes, strides)]. *)
Fixpoint conv_loop (output : Shape) (layers : list (Z * (Z * Z) * (Z * Z)))
    (training : bool) : py Graph Shape :=
  match layers with
  | [] => ret output
  | (_filter, kernel_size, stride) :: rest =>
      output <- tf_layers_conv2d output _filter kernel_size stride ;;
      output <- tf_minimum output (relu_cutoff FLAGS) ;;
      output <- tf_layers_dropout output (conv_dropout_rate FLAGS) training ;;
      conv_loop output rest training
  end.

(** The defaults of [kernel_sizes] and [strides]; the default of
    [filters] is [FLAGS.conv_filters]. *)
Definition default_kernel_sizes : list (Z * Z) := [(11, 41); (11, 21); (11, 21)].
Definition default_strides : list (Z * Z) := [(2, 2); (1, 2); (1, 2)].

Definition mismatch_error : exn :=
  ValueError
    "conv_layers(): Arguments filters, kernel_size, and strides must contain the same number of elements.".

Definition conv_layers (sequences : Shape) (filters : list Z)
    (kernel_sizes strides : list (Z * Z)) (training : bool)
    : py Graph (Shape * list Z) :=
  if negb ((length filters =? length kernel_sizes)%nat
           && (length kernel_sizes =? length strides)%nat)
  then raise mismatch_error
  else
    output <- conv_loop sequences (zip3 filters kernel_sizes strides) training ;;
    batch <- tf_shape_at output 0 ;;
    last_filter <- lift (index_last filters) ;;
    output <- tf_reshape output [batch; -1; 10 * last_filter] ;;
    time <- tf_shape_at output 1 ;;
    batch <- tf_shape_at output 0 ;;
    seq_length <- tf_tile [time] [batch] ;;
    ret (output, seq_length).

Definition create_cell (num_units : Z) (keep_prob : option Q)
    : outcome DropoutWrapper :=
  let keep_prob := default 1%Q keep_prob in
  let cell := {| num_units := num_units; activation := "tanh" |} in
  tf_DropoutWrapper cell keep_prob keep_prob (random_seed FLAGS).

Definition bidirectional_cells (num_units num_layers : Z) (dropout : option Q)
    : outcome (list DropoutWrapper * list DropoutWrapper) :=
  let dropout := default 1%Q dropout in
  let keep_prob := Py.min 1 (Py.max 0 (1 - dropout)) in
  match comprehension (fun _ => create_cell num_units (Some keep_prob))
                      (range num_layers) with
  | Raise e => Raise e
  | Return _fw_cells =>
      match comprehension (fun _ => create_cell num_units (Some keep_prob))
                          (range num_layers) with
      | Raise e => Raise e
      | Return _bw_cells => Return (_fw_cells, _bw_cells)
      end
  end.

(** [tf.get_variable(name, shape, initializer=..., dtype=...)] under
    [tf.device(device)], outside any reusing scope: the shape is
    converted first and no dimension may be negative, then the name must
    be new; both refusals are a [ValueError] raised before anything is
    built. The variable is registered in the store and in the
    collections of global and trainable variables. *)
Definition tf_get_variable (device name : string) (shape : list Z)
    (initializer : Initializer) (dtype : string) : py Graph TfVariable :=
  if existsb (fun d => d <? 0) shape then
    raise (ValueError "Dimension must be >= 0")
  else
    g <- get ;;
    match variables g !! name with
    | Some _ => raise (ValueError "Variable already exists, disallowed.")
    | None =>
        let var := {| var_name := name; var_shape := shape;
                      var_initializer := initializer; var_dtype := dtype;
                      var_device := device |} in
        build "VariableV2" ;;;
        modify (fun g => {| ops := ops g; collections := collections g;
                            variables := <[name := var]> (variables g) |}) ;;;
        tf_add_to_collection "variables" (VarRead name) ;;;
        tf_add_to_collection "trainable_variables" (VarRead name) ;;;
        ret var
    end.

Definition variable_on_cpu (name : string) (shape : list Z)
    (initializer : Initializer) : py Graph TfVariable :=
  tf_get_variable "/cpu:0" name shape initializer TF_FLOAT.

Definition variable_with_weight_decay (name : string) (shape : list Z)
    (stddev : Q) (weight_decay : option Q) : py Graph TfVariable :=
  let initializer := truncated_normal_initializer stddev TF_FLOAT in
  var <- variable_on_cpu name shape initializer ;;
  match weight_decay with
  | Some wd =>
      l2 <- tf_nn_l2_loss (VarRead (var_name var)) ;;
      weight_decay <- tf_multiply l2 (Const wd) "weight_loss" ;;
      tf_add_to_collection "losses" weight_decay
  | None => ret tt
  end ;;;
  ret var.

End Functions.

(** Flag values of a training run with the default convolution stack. *)
Definition sample_flags : Flags :=
  {| conv_filters := [32; 32; 96]; relu_cutoff := 20; conv_dropout_rate := 0.4;
     random_seed := 0 |}.

(** *** The Adam optimizer

    The state of a [tf.train.AdamOptimizer] that [_apply_dense] reads:
    the slot variables, by slot name and variable, the two beta
    accumulators and the hyper-parameter tensors. *)

Record AdamOptimizer : Type := {
  _slots : gmap string (gmap string Tensor);
  _beta1_power : Tensor;
  _beta2_power : Tensor;
  _lr_t : Tensor;
  _beta1_t : Tensor;
  _beta2_t : Tensor;
  _epsilon_t : Tensor
}.

(** [self.get_slot(var, name)]: [None] when no such slot was created. *)
Definition get_slot (self : AdamOptimizer) (var : TfVariable) (name : string)
    : option Tensor :=
  named_slots ← _slots self !! name; named_slots !! var_name var.

Definition _get_beta_accumulators (self : AdamOptimizer) : Tensor * Tensor :=
  (_beta1_power self, _beta2_power self).

(** A graph operation, as returned for a parameter update. *)
Record Operation : Type := { op_type : string; op_inputs : list Tensor }.

(** The base class: its [_apply_dense] builds one [ApplyAdam] operation
    from the variable, its slots, the accumulators, the hyper-parameters
    and the gradient. *)
Module AdamOptimizer.

Definition _apply_dense (self : AdamOptimizer) (grad : Tensor) (var : TfVariable)
    : py Graph Operation :=
  m <- operand (get_slot self var "m") ;;
  v <- operand (get_slot self var "v") ;;
  let '(beta1_power, beta2_power) := _get_beta_accumulators self in
  build "ApplyAdam" ;;;
  ret {| op_type := "ApplyAdam";
         op_inputs := [VarRead (var_name var); m; v; beta1_power; beta2_power;
                       _lr_t self; _beta1_t self; _beta2_t self;
                       _epsilon_t self; grad] |}.

End AdamOptimizer.

Module AdamOptimizerLogger.

Section Subclass.

(** [super(AdamOptimizerLogger, self)._apply_dense] *)
Variable super_apply_dense :
  AdamOptimizer -> Tensor -> TfVariable -> py Graph Operation.

Definition _apply_dense (self : AdamOptimizer) (grad : Tensor) (var : TfVariable)
    : py Graph Operation :=
  let m := get_slot self var "m" in
  let v := get_slot self var "v" in
  let '(beta1_power, beta2_power) := _get_beta_accumulators self in

  d <- binop "sub" Sub (Const 1) beta1_power ;;
  m' <- operand m ;;
  m_hat <- binop "truediv" Div m' d ;;
  d <- binop "sub" Sub (Const 1) beta2_power ;;
  v' <- operand v ;;
  v_hat <- binop "truediv" Div v' d ;;

  p <- binop "pow" Pow v_hat (Const 0.5) ;;
  d <- binop "add" Add p (_epsilon_t self) ;;
  step <- binop "truediv" Div m_hat d ;;

  tf_summary_histogram "step" step ;;;

  d <- binop "sub" Sub (Const 1) beta2_power ;;
  r <- tf_sqrt d ;;
  n <- binop "mul" Mul (_lr_t self) r ;;
  d <- binop "sub" Sub (Const 1) beta1_power ;;
  current_lr <- binop "truediv" Div n d ;;
  tf_summary_scalar "estimated_lr" current_lr ;;;

  super_apply_dense self grad var.

End Subclass.

End AdamOptimizerLogger.

(** An optimizer that has created its slots for the variable
    'dense/kernel'. *)
Definition sample_optimizer : AdamOptimizer :=
  {| _slots := {[ "m" := {[ "dense/kernel" := Named "dense/kernel/Adam" ]};
                  "v" := {[ "dense/kernel" := Named "dense/kernel/Adam_1" ]} ]};
     _beta1_power := Named "beta1_power";
     _beta2_power := Named "beta2_power";
     _lr_t := Const 0.001;
     _beta1_t := Const 0.9;
     _beta2_t := Const 0.999;
     _epsilon_t := Const 0.00000001 |}.

Definition sample_variable : TfVariable :=
  {| var_name := "dense/kernel"; var_shape := [960; 2048];
     var_initializer := glorot_normal_initializer; var_dtype := "float32";
     var_device := "/gpu:0" |}.

(** The two quantities [AdamOptimizerLogger._apply_dense] reports. *)
Definition step_estimate (self : AdamOptimizer) (m v : Tensor) : Tensor :=
  Div (Div m (Sub (Const 1) (_beta1_power self)))
      (Add (Pow (Div v (Sub (Const 1) (_beta2_power self))) (Const 0.5))
           (_epsilon_t self)).

Definition estimated_lr (self : AdamOptimizer) : Tensor :=
  Div (Mul (_lr_t self) (Sqrt (Sub (Const 1) (_beta2_power self))))
      (Sub (Const 1) (_beta1_power self)).

(** *** The dense stack

    [dense_layers] reads two more flags, [FLAGS.num_units_dense] and
    [FLAGS.dense_dropout_rate]; they are given next to [FLAGS]. *)

(** [tf.layers.dense(inputs, units, activation, kernel_initializer,
    kernel_regularizer)]: the input has at least two axes and the last
    one is replaced by [units]. *)
Definition tf_layers_dense (inputs : Shape) (units : Z) (activation : string)
    (kernel_initializer : Initializer) (kernel_regularizer : option string)
    : py Graph Shape :=
  if (length inputs <? 2)%nat then
    raise (ValueError "dense: expected min_ndim=2")
  else if units <=? 0 then
    raise (ValueError "dense: units must be positive")
  else
    build "Dense" ;;;
    ret (removelast inputs ++ [units]).

Section Dense.

Variable FLAGS : Flags.
Variable num_units_dense : Z.
Variable dense_dropout_rate : Q.

(** The body of [for _ in range(num_layers)]. *)
Fixpoint dense_loop (output : Shape) (idxs : list Z) (training : bool)
    (regularizer : option string) (initializer : Initializer) (activation : string)
    : py Graph Shape :=
  match idxs with
  | [] => ret output
  | _ :: rest =>
      output <- tf_layers_dense output num_units_dense activation initializer
                  regularizer ;;
      output <- tf_minimum output (relu_cutoff FLAGS) ;;
      output <- tf_layers_dropout output dense_dropout_rate training ;;
      dense_loop output rest training regularizer initializer activation
  end.

Definition dense_layers (sequences : Shape) (training : bool)
    (regularizer : option string) (initializer : Initializer)
    (num_layers : Z) (activation : string) : py Graph Shape :=
  dense_loop sequences (range num_layers) training regularizer initializer activation.

End Dense.

End TfContrib.

(** * Properties *)

Import Storage.

(** ** Reasoning about [py] computations *)

Lemma bind_Return {S A B} (m : py S A) (k : A -> py S B) s a s' :
  m s = (Return a, s') -> bind m k s = k a s'.
Proof. intros H. unfold bind. now rewrite H. Qed.

Lemma bind_Raise {S A B} (m : py S A) (k : A -> py S B) s e s' :
  m s = (Raise e, s') -> bind m k s = (Raise e, s').
Proof. intros H. unfold bind. now rewrite H. Qed.

Lemma bind_inv_Return {S A B} (m : py S A) (k : A -> py S B) s b s'' :
  bind m k s = (Return b, s'') ->
  exists a s', m s = (Return a, s') /\ k a s' = (Return b, s'').
Proof.
  unfold bind. destruct (m s) as [[a | e] s'] eqn:E; intros H.
  - exists a, s'. split; [reflexivity | exact H].
  - discriminate H.
Qed.

Ltac py_step :=
  repeat (unfold bind, ret, raise, lift, get, modify, try_except; cbn [fst snd]).

(** ** storage.py: deletion *)

Lemma removals_app evs1 evs2 :
  removals (evs1 ++ evs2) = (removals evs1 + removals evs2)%nat.
Proof.
  induction evs1 as [| [] evs1 IH]; cbn; auto.
Qed.

Lemma os_remove_fault path w e rest :
  faults w = Some e :: rest ->
  os_remove path w =
    (Raise e, {| fs := fs w; faults := rest; trace := trace w ++ [EvRemove path] |}).
Proof.
  intros Hf. unfold os_remove, emit, next_fault. py_step. now rewrite Hf.
Qed.

Lemma os_remove_Return path w w' :
  os_remove path w = (Return tt, w') -> fs w' !! path = None.
Proof.
  unfold os_remove, emit, next_fault. py_step.
  destruct (faults w) as [| [e |] rest]; cbn;
    try discriminate;
    (destruct (fs w !! path) as [[|] |]; cbn; try discriminate;
     intros [= <-]; cbn; apply lookup_delete_eq).
Qed.

(** Every run of the loop only appends to the trace, with at most one
    deletion attempt per index. *)
Lemma delete_file_loop_trace path idxs : forall w,
  exists evs,
    trace (snd (delete_file_loop path idxs w)) = trace w ++ evs
    /\ (removals evs <= length idxs)%nat.
Proof.
  induction idxs as [| i rest IH]; intros w.
  - exists []. cbn. rewrite app_nil_r. split; [reflexivity | lia].
  - cbn [delete_file_loop]. unfold try_except.
    destruct (os_remove path w) as [[[] | e] w1] eqn:Hrm.
    + exists [EvRemove path]. cbn [snd]. split; [| cbn; lia].
      revert Hrm. unfold os_remove, emit, next_fault. py_step.
      destruct (faults w) as [| [e |] rest']; cbn; try discriminate;
        (destruct (fs w !! path) as [[|] |]; cbn; try discriminate;
         intros [= <-]; reflexivity).
    + assert (Ht : trace w1 = trace w ++ [EvRemove path]).
      { revert Hrm. unfold os_remove, emit, next_fault. py_step.
        destruct (faults w) as [| [e' |] rest']; cbn;
          try (intros [= _ <-]; reflexivity);
          (destruct (fs w !! path) as [[|] |]; cbn; try discriminate;
           intros [= _ <-]; reflexivity). }
      destruct (is_OSError e || is_ValueError e).
      * unfold print, time_sleep, emit. py_step.
        destruct (i =? 4).
        -- eexists. cbn. rewrite Ht, <- app_assoc. split; [reflexivity |].
           cbn. lia.
        -- match goal with
           | |- context [delete_file_loop path rest ?w2] =>
               destruct (IH w2) as (evs & Hevs & Hn)
           end.
           exists ([EvRemove path; warning i path; EvSleep 1] ++ evs).
           rewrite Hevs. cbn [trace]. rewrite Ht, <- !app_assoc.
           split; [reflexivity |].
           rewrite removals_app. cbn. lia.
      * exists [EvRemove path]. cbn [snd]. split; [exact Ht | cbn; lia].
Qed.

(** When the loop ends normally with 4 as its last index, the file is gone. *)
Lemma delete_file_loop_Return path idxs : forall w w',
  last idxs = Some 4 ->
  delete_file_loop path idxs w = (Return tt, w') ->
  fs w' !! path = None.
Proof.
  induction idxs as [| i rest IH]; intros w w' Hlast; [discriminate Hlast |].
  cbn [delete_file_loop]. unfold try_except.
  destruct (os_remove path w) as [[[] | e] w1] eqn:Hrm.
  - intros [= <-]. eapply os_remove_Return, Hrm.
  - destruct (is_OSError e || is_ValueError e); [| discriminate].
    unfold print, time_sleep, emit. py_step.
    destruct (i =? 4) eqn:Hi; [discriminate |].
    apply IH. destruct rest as [| j rest'].
    + cbn in Hlast. injection Hlast as ->. discriminate Hi.
    + exact Hlast.
Qed.

(** One failed attempt: the warning is printed, then either the loop
    gives up (index 4) or it sleeps one second and goes on. *)
Lemma delete_file_loop_failed path i rest w e frest :
  faults w = Some e :: frest ->
  is_OSError e || is_ValueError e = true ->
  delete_file_loop path (i :: rest) w =
    if i =? 4 then
      (Raise (RuntimeError path (Some e)),
       {| fs := fs w; faults := frest;
          trace := trace w ++ [EvRemove path; warning i path] |})
    else
      delete_file_loop path rest
        {| fs := fs w; faults := frest;
           trace := trace w ++ [EvRemove path; warning i path; EvSleep 1] |}.
Proof.
  intros Hf Hc. cbn [delete_file_loop]. unfold try_except.
  rewrite (os_remove_fault path w e frest Hf), Hc.
  unfold print, time_sleep, emit, warning. py_step.
  destruct (i =? 4); cbn; rewrite <- !app_assoc; reflexivity.
Qed.

Lemma delete_file_if_exists_file path w :
  fs w !! path = Some File ->
  delete_file_if_exists path w = delete_file_loop path [0; 1; 2; 3; 4] w.
Proof.
  intros Hfile. unfold delete_file_if_exists, os_path_exists, os_path_isfile.
  py_step. rewrite Hfile. cbn. rewrite Hfile. reflexivity.
Qed.

Lemma delete_file_if_exists_other path w :
  fs w !! path ≠ Some File ->
  delete_file_if_exists path w = (Return tt, w).
Proof.
  intros Hfile. unfold delete_file_if_exists, os_path_exists, os_path_isfile.
  py_step.
  destruct (fs w !! path) as [[|] |] eqn:E; cbn; rewrite ?E; try reflexivity.
  now destruct Hfile.
Qed.

(** C8: when a file exists and each of the five removal attempts fails
    with an [OSError] or a [ValueError], [delete_file_if_exists] makes
    exactly five attempts, sleeps one second after each of the first four,
    and then raises [RuntimeError(path)] whose cause is the fifth failure;
    no run makes more than five attempts. [delete_directory_if_exists]
    makes a single [rmtree] attempt and lets its failure through at once,
    without sleeping. *)
Theorem delete_file_retries_then_fatal :
  forall (path : string) (w : world) (e0 e1 e2 e3 e4 : exn)
         (rest : list (option exn)),
    fs w !! path = Some File ->
    faults w = [Some e0; Some e1; Some e2; Some e3; Some e4] ++ rest ->
    Forall (fun e => is_OSError e || is_ValueError e = true) [e0; e1; e2; e3; e4] ->
    let attempts :=
      [EvRemove path; warning 0 path; EvSleep 1;
       EvRemove path; warning 1 path; EvSleep 1;
       EvRemove path; warning 2 path; EvSleep 1;
       EvRemove path; warning 3 path; EvSleep 1;
       EvRemove path; warning 4 path] in
    delete_file_if_exists path w =
      (Raise (RuntimeError path (Some e4)),
       {| fs := fs w; faults := rest; trace := trace w ++ attempts |})
    /\ removals attempts = 5%nat
    /\ sleeps attempts = [1; 1; 1; 1]
    /\ (forall w0 : world, exists evs,
          trace (snd (delete_file_if_exists path w0)) = trace w0 ++ evs
          /\ (removals evs <= 5)%nat)
    /\ (forall (dir : string) (wd : world) (e : exn) (restd : list (option exn)),
          fs wd !! dir = Some Directory ->
          faults wd = Some e :: restd ->
          delete_directory_if_exists dir wd =
            (Raise e, {| fs := fs wd; faults := restd;
                         trace := trace wd ++ [EvRmtree dir] |})).
Proof.
  intros path w e0 e1 e2 e3 e4 rest Hfile Hfaults Hcaught attempts.
  repeat match goal with
         | H : Forall _ (_ :: _) |- _ => apply Forall_cons in H; destruct H
         end.
  split; [| split; [reflexivity | split; [reflexivity | split]]].
  - rewrite (delete_file_if_exists_file _ _ Hfile).
    do 5 (erewrite delete_file_loop_failed;
          [cbn [Z.eqb Pos.eqb fs faults trace]
          | cbn [faults]; first [exact Hfaults | reflexivity]
          | assumption]).
    subst attempts. rewrite <- !app_assoc. reflexivity.
  - intros w0. destruct (fs w0 !! path) as [[|] |] eqn:Hp.
    + rewrite (delete_file_if_exists_file _ _ Hp).
      apply (delete_file_loop_trace path [0; 1; 2; 3; 4] w0).
    + rewrite delete_file_if_exists_other by congruence.
      exists []. cbn. rewrite app_nil_r. split; [reflexivity | lia].
    + rewrite delete_file_if_exists_other by congruence.
      exists []. cbn. rewrite app_nil_r. split; [reflexivity | lia].
  - intros dir wd e restd Hdir Hf.
    unfold delete_directory_if_exists, os_path_exists, os_path_isdir,
      shutil_rmtree, emit, next_fault.
    py_step. rewrite Hdir. cbn. rewrite Hdir, Hf. cbn.
    destruct (is_OSError e); reflexivity.
Qed.

Lemma delete_file_retries_then_fatal_witness :
  fst (delete_file_if_exists "train/model.ckpt" locked_world)
    = Raise (RuntimeError "train/model.ckpt" (Some (OSError "still busy")))
  /\ fst (delete_directory_if_exists "train/data" locked_world)
    = Raise (OSError "busy").
Proof.
  destruct (delete_file_retries_then_fatal "train/model.ckpt" locked_world
              (OSError "busy") (OSError "busy") (ValueError "path")
              (OSError "busy") (OSError "still busy") [])
    as (Hfile & _ & _ & _ & Hdir).
  - reflexivity.
  - reflexivity.
  - repeat constructor.
  - split.
    + rewrite Hfile. reflexivity.
    + erewrite Hdir; reflexivity.
Defined.

(** C9: on a path that does not exist [delete_file_if_exists] returns
    normally and leaves the whole state as it was: the file tree, the
    pending faults (no deletion call was made) and the trace. Hence a
    second call after any call that returned changes nothing. *)
Theorem delete_file_if_exists_absent_noop :
  forall (path : string) (w : world),
    fs w !! path = None ->
    delete_file_if_exists path w = (Return tt, w)
    /\ (forall w0 w1 : world,
          delete_file_if_exists path w0 = (Return tt, w1) ->
          delete_file_if_exists path w1 = (Return tt, w1)).
Proof.
  intros path w Habsent. split.
  - apply delete_file_if_exists_other. congruence.
  - intros w0 w1 Hcall.
    destruct (fs w0 !! path) as [[|] |] eqn:Hp.
    + rewrite (delete_file_if_exists_file _ _ Hp) in Hcall.
      apply delete_file_loop_Return in Hcall; [| reflexivity].
      apply delete_file_if_exists_other. congruence.
    + rewrite delete_file_if_exists_other in Hcall by congruence.
      injection Hcall as <-. apply delete_file_if_exists_other. congruence.
    + rewrite delete_file_if_exists_other in Hcall by congruence.
      injection Hcall as <-. apply delete_file_if_exists_other. congruence.
Qed.

Lemma delete_file_if_exists_absent_noop_witness :
  delete_file_if_exists "train/events.out" locked_world = (Return tt, locked_world).
Proof.
  apply (delete_file_if_exists_absent_noop "train/events.out" locked_world).
  reflexivity.
Defined.

(** ** storage.py: version control *)

(** C6: on a detached HEAD [git_branch] returns the string
    'DETACHED HEAD'; on a repository without tags [git_latest_tag] raises
    [IndexError] from [tags[-1]]: it has no sentinel. *)
Theorem git_latest_tag_without_tags_raises :
  forall (head : Commit) (ref : option Head) (tgs : list TagReference),
    git_branch {| head_object := head; head_reference := None; tags := tgs |}
      = (Return "DETACHED HEAD",
         {| head_object := head; head_reference := None; tags := tgs |})
    /\ git_latest_tag {| head_object := head; head_reference := ref; tags := [] |}
      = (Raise (IndexError "list index out of range"),
         {| head_object := head; head_reference := ref; tags := [] |}).
Proof.
  intros head ref tgs. split; reflexivity.
Qed.

(** ** tf_contrib.py: the convolution stack *)

Import TfContrib.

(** The docstring's formula for the output size agrees with the
    rounded-up quotient whenever the kernel size is odd, as all the
    default kernel sizes are. *)
Lemma same_out_docstring w_i k_w s_w :
  Z.odd k_w = true -> s_w <> 0 ->
  docstring_same_out w_i k_w s_w = same_out w_i s_w.
Proof.
  intros Hodd Hs. unfold docstring_same_out, same_out.
  assert (Hk : k_w = 2 * (k_w / 2) + 1).
  { rewrite (Z.div_mod k_w 2) at 1 by lia. rewrite Zmod_odd, Hodd. reflexivity. }
  replace (w_i - k_w + 2 * (k_w / 2)) with (w_i - 1) by lia.
  replace (w_i + s_w - 1) with (w_i - 1 + 1 * s_w) by lia.
  rewrite Z.div_add by exact Hs. reflexivity.
Qed.

Lemma mjoin_replicate_singleton {A} (n : nat) (x : A) :
  mjoin (replicate n [x]) = replicate n x.
Proof.
  induction n as [| n IH]; [reflexivity |].
  simpl. f_equal. exact IH.
Qed.

Lemma zip3_filters (a : list Z) : forall (b c : list (Z * Z)),
  length a = length b -> length b = length c ->
  map (fun l => fst (fst l)) (zip3 a b c) = a
  /\ map (fun l => snd l) (zip3 a b c) = c.
Proof.
  induction a as [| x a IH]; intros [| y b] [| z c] Hab Hbc;
    try discriminate; [split; reflexivity |].
  cbn in *. destruct (IH b c) as [H1 H2]; [lia | lia |].
  now rewrite H1, H2.
Qed.

Lemma last_cons_cons {A} (x y : A) l : last (x :: y :: l) = last (y :: l).
Proof. reflexivity. Qed.

(** What a successful run of the loop computes: batch size kept, each
    spatial axis reduced by its strides, channels set by the last layer. *)
Lemma conv_loop_Return F layers : forall s tr g out g1,
  layers <> [] ->
  conv_loop F s layers tr g = (Return out, g1) ->
  exists b t f c c',
    s = [b; t; f; c]
    /\ last (map (fun l => fst (fst l)) layers) = Some c'
    /\ out = [b; reduce_axis t (map (fun l => fst (snd l)) layers);
                reduce_axis f (map (fun l => snd (snd l)) layers); c'].
Proof.
  induction layers as [| [[fl ks] st] rest IH]; intros s tr g out g1 Hne Hrun;
    [congruence |].
  cbn [conv_loop] in Hrun.
  unfold tf_layers_conv2d, tf_minimum, tf_layers_dropout, build in Hrun.
  destruct s as [| b [| t [| f [| c [| ? ?]]]]]; try discriminate Hrun.
  revert Hrun. py_step.
  destruct (layer_args_ok fl ks st); [| discriminate].
  cbn. intros Hrun.
  destruct rest as [| l rest'].
  - cbn in Hrun. injection Hrun as <- _.
    exists b, t, f, c, fl. repeat split.
  - apply IH in Hrun; [| discriminate].
    destruct Hrun as (b' & t' & f' & c0 & c' & Hs & Hlast & Hout).
    injection Hs as <- <- <- <-.
    exists b, t, f, c, c'. split; [reflexivity |]. split; [exact Hlast |].
    exact Hout.
Qed.

(** Reshaping to [[batch; -1; width]]: when it succeeds, both given sizes
    are positive and the middle size is the exact quotient. *)
Lemma reshape_shape_infer s batch width out :
  reshape_shape s [batch; -1; width] = Return out ->
  0 < batch /\ 0 < width
  /\ batch * width * (num_elements s / (batch * width)) = num_elements s
  /\ out = [batch; num_elements s / (batch * width); width].
Proof.
  unfold reshape_shape, count_unknown. cbn [existsb].
  destruct (batch <? -1) eqn:Hb; [discriminate |].
  destruct (width <? -1) eqn:Hw; [cbn; discriminate |].
  cbn [orb]. rewrite !filter_cons, !filter_nil.
  repeat case_decide; try lia; cbn [length]; try discriminate.
  cbn [num_elements fold_right].
  replace (batch * (width * 1)) with (batch * width) by lia.
  destruct (batch * width <=? 0) eqn:Hp; [discriminate |].
  destruct (batch * width * (num_elements s / (batch * width)) =? num_elements s) eqn:Hq;
    [| discriminate].
  intros [= <-]. cbn [map].
  assert ((batch =? -1) = false) as -> by lia.
  assert ((width =? -1) = false) as -> by lia.
  cbn. repeat split; try lia; nia.
Qed.

(** The shape of the things [conv_layers] returns, read off its code. *)
Lemma conv_layers_Return F sequences filters ks st tr g out seq g' :
  conv_layers F sequences filters ks st tr g = (Return (out, seq), g') ->
  exists s g1 last_filter batch,
    length filters = length ks /\ length ks = length st
    /\ conv_loop F sequences (zip3 filters ks st) tr g = (Return s, g1)
    /\ last filters = Some last_filter
    /\ s !! 0%nat = Some batch
    /\ reshape_shape s [batch; -1; 10 * last_filter] = Return out
    /\ seq = replicate (Z.to_nat batch)
                       (num_elements s / (batch * (10 * last_filter))).
Proof.
  unfold conv_layers.
  destruct (length filters =? length ks)%nat eqn:H1; [| cbn; discriminate].
  destruct (length ks =? length st)%nat eqn:H2; [| cbn; discriminate].
  cbn [negb andb]. apply Nat.eqb_eq in H1, H2.
  intros Hrun.
  apply bind_inv_Return in Hrun as (s & g1 & Hloop & Hrun).
  apply bind_inv_Return in Hrun as (batch & g2 & Hshape & Hrun).
  apply bind_inv_Return in Hrun as (last_filter & g3 & Hlast & Hrun).
  apply bind_inv_Return in Hrun as (out' & g4 & Hreshape & Hrun).
  exists s, g1, last_filter, batch.
  assert (Hb : s !! 0%nat = Some batch).
  { revert Hshape. unfold tf_shape_at, build. py_step.
    destruct (s !! 0%nat); cbn; [intros [= -> _]; reflexivity | discriminate]. }
  assert (Hl : last filters = Some last_filter).
  { revert Hlast. unfold lift, index_last.
    destruct (last filters); [intros [= -> _]; reflexivity | discriminate]. }
  assert (Hr : reshape_shape s [batch; -1; 10 * last_filter] = Return out').
  { revert Hreshape. unfold tf_reshape, build. py_step.
    destruct (reshape_shape s _); [intros [= -> _]; reflexivity | discriminate]. }
  destruct (reshape_shape_infer _ _ _ _ Hr) as (Hbpos & Hwpos & Hdiv & ->).
  revert Hrun. unfold tf_shape_at, tf_tile, build. py_step. cbn.
  assert ((batch <? 0) = false) as -> by lia. cbn.
  intros [= <- <- _].
  rewrite mjoin_replicate_singleton. repeat split; auto.
Qed.

Lemma zip3_nonempty (a : list Z) (b c : list (Z * Z)) :
  length a = length b -> length b = length c -> a <> [] -> zip3 a b c <> [].
Proof.
  destruct a, b, c; cbn; intros; try discriminate; congruence.
Qed.

(** A returning call, with the stack output and the input laid out. *)
Lemma conv_layers_shapes F sequences filters ks st tr g out seq g' :
  conv_layers F sequences filters ks st tr g = (Return (out, seq), g') ->
  exists b t f c last_filter,
    sequences = [b; t; f; c]
    /\ last filters = Some last_filter
    /\ length filters = length ks /\ length ks = length st
    /\ 0 < b /\ 0 < last_filter
    /\ let t' := reduce_axis t (map fst st) in
       let f' := reduce_axis f (map snd st) in
       let time := b * (t' * (f' * (last_filter * 1))) / (b * (10 * last_filter)) in
       fst (conv_loop F sequences (zip3 filters ks st) tr g)
         = Return [b; t'; f'; last_filter]
       /\ b * (10 * last_filter) * time = b * (t' * (f' * (last_filter * 1)))
       /\ out = [b; time; 10 * last_filter]
       /\ seq = replicate (Z.to_nat b) time.
Proof.
  intros Hrun.
  apply conv_layers_Return in Hrun
    as (s & g1 & last_filter & batch & H1 & H2 & Hloop & Hlast & Hb & Hr & ->).
  assert (Hne : filters <> []) by (intros ->; discriminate Hlast).
  pose proof (zip3_nonempty _ _ _ H1 H2 Hne) as Hzne.
  destruct (conv_loop_Return _ _ _ _ _ _ _ Hzne Hloop)
    as (b & t & f & c & c' & -> & Hc' & ->).
  destruct (zip3_filters filters ks st H1 H2) as [Hf Hs].
  rewrite Hf, Hlast in Hc'. injection Hc' as <-.
  cbn in Hb. injection Hb as <-.
  destruct (reshape_shape_infer _ _ _ _ Hr) as (Hbpos & Hwpos & Hdiv & ->).
  assert (Ht : map (fun l : Z * (Z * Z) * (Z * Z) => fst (snd l)) (zip3 filters ks st)
               = map fst st).
  { rewrite <- Hs at 2. rewrite map_map. reflexivity. }
  assert (Hfq : map (fun l : Z * (Z * Z) * (Z * Z) => snd (snd l)) (zip3 filters ks st)
                = map snd st).
  { rewrite <- Hs at 2. rewrite map_map. reflexivity. }
  exists b, t, f, c, last_filter.
  rewrite Hloop. cbn [fst]. rewrite Ht, Hfq in *.
  cbn [num_elements fold_right] in *.
  repeat split; auto; lia.
Qed.

(** C1: whenever [conv_layers] returns, the input is a 4-D batch, the
    output is [batch, time', width], and the sequence-length vector has
    one entry per batch element of the input, each equal to [time'], the
    size of axis 1 of the reshaped output. The vector depends on the
    padded batch tensor alone, so examples of differing true lengths in
    one batch all get the same length. *)
Theorem conv_layers_seq_length_constant :
  forall (F : Flags) (sequences : Shape) (filters : list Z)
         (kernel_sizes strides : list (Z * Z)) (training : bool)
         (g g' : Graph) (output : Shape) (seq_length : list Z),
    conv_layers F sequences filters kernel_sizes strides training g
      = (Return (output, seq_length), g') ->
    exists batch time width,
      sequences !! 0%nat = Some batch
      /\ output = [batch; time; width]
      /\ length seq_length = Z.to_nat batch
      /\ Forall (fun n => n = time) seq_length
      /\ seq_length = replicate (Z.to_nat batch) time.
Proof.
  intros F sequences filters ks st tr g g' out seq Hrun.
  apply conv_layers_shapes in Hrun
    as (b & t & f & c & lf & -> & _ & _ & _ & _ & _ & Hrest).
  cbv zeta in Hrest. destruct Hrest as (_ & _ & -> & ->).
  eexists b, _, _. split; [reflexivity |]. split; [reflexivity |].
  split; [apply length_replicate |].
  split; [| reflexivity].
  apply Forall_forall. intros x Hx.
  now apply elem_of_replicate in Hx as [-> _].
Qed.

Lemma conv_layers_seq_length_constant_witness :
  exists batch time width,
    [3; 7; 80; 1] !! 0%nat = Some batch
    /\ [3; 4; 960] = [batch; time; width]
    /\ length [4; 4; 4] = Z.to_nat batch
    /\ Forall (fun n => n = time) [4; 4; 4]
    /\ [4; 4; 4] = replicate (Z.to_nat batch) time.
Proof.
  apply (conv_layers_seq_length_constant sample_flags [3; 7; 80; 1] [32; 32; 96]
           default_kernel_sizes default_strides true empty_graph
           (snd (conv_layers sample_flags [3; 7; 80; 1] [32; 32; 96]
                   default_kernel_sizes default_strides true empty_graph))).
  vm_compute. reflexivity.
Defined.

Lemma conv_layers_feature_width_counterexample :
  ~ (forall (F : Flags) (sequences : Shape) (filters : list Z)
            (kernel_sizes strides : list (Z * Z)) (training : bool)
            (g g' : Graph) (output : Shape) (seq_length : list Z)
            (batch time frequency channels : Z),
       fst (conv_loop F sequences (zip3 filters kernel_sizes strides) training g)
         = Return [batch; time; frequency; channels] ->
       conv_layers F sequences filters kernel_sizes strides training g
         = (Return (output, seq_length), g') ->
       last filters = Some channels
       /\ output !! 2%nat = Some (frequency * channels)).
Proof.
  intros H.
  assert (Hstack :
    fst (conv_loop sample_flags [2; 4; 40; 1]
           (zip3 [32; 32; 96] default_kernel_sizes default_strides) true empty_graph)
      = Return [2; 2; 5; 96]) by (vm_compute; reflexivity).
  assert (Hrun :
    conv_layers sample_flags [2; 4; 40; 1] [32; 32; 96]
      default_kernel_sizes default_strides true empty_graph
      = (Return ([2; 1; 960], [1; 1]),
         snd (conv_layers sample_flags [2; 4; 40; 1] [32; 32; 96]
                default_kernel_sizes default_strides true empty_graph)))
    by (vm_compute; reflexivity).
  destruct (H _ _ _ _ _ _ _ _ _ _ _ _ _ _ Hstack Hrun) as [_ Hwidth].
  vm_compute in Hwidth. discriminate Hwidth.
Qed.

(** C4 (amended): whenever [conv_layers] returns, the convolution stack
    has left a [batch, time, frequency, channels] tensor whose channel
    count is the last filter count, and the reshaped output has three
    axes, the last of size 10 times that filter count, the 10 being
    fixed. When the frequency size left is 10 this is frequency times
    filters and the time axis is kept. With filters (32, 32, 96) the
    feature width is 10 * 96 for any input that is accepted. *)
Theorem conv_layers_feature_width :
  forall (F : Flags) (sequences : Shape) (filters : list Z)
         (kernel_sizes strides : list (Z * Z)) (training : bool)
         (g g' : Graph) (output : Shape) (seq_length : list Z),
    conv_layers F sequences filters kernel_sizes strides training g
      = (Return (output, seq_length), g') ->
    exists batch time frequency channels,
      fst (conv_loop F sequences (zip3 filters kernel_sizes strides) training g)
        = Return [batch; time; frequency; channels]
      /\ last filters = Some channels
      /\ length output = 3%nat
      /\ output !! 2%nat = Some (10 * channels)
      /\ (frequency = 10 -> output = [batch; time; frequency * channels])
      /\ (filters = [32; 32; 96] -> output !! 2%nat = Some (10 * 96)).
Proof.
  intros F sequences filters ks st tr g g' out seq Hrun.
  apply conv_layers_shapes in Hrun
    as (b & t & f & c & lf & -> & Hlast & _ & _ & Hb & Hlf & Hrest).
  cbv zeta in Hrest. destruct Hrest as (Hloop & Hdiv & -> & _).
  eexists b, _, _, lf. split; [exact Hloop |]. split; [exact Hlast |].
  split; [reflexivity |]. split; [reflexivity |]. split.
  - intros Hten. rewrite Hten.
    replace (b * (reduce_axis t (map fst st) * (10 * (lf * 1))))
      with (reduce_axis t (map fst st) * (b * (10 * lf))) by lia.
    rewrite Z.div_mul by lia. reflexivity.
  - intros ->. cbn in Hlast. injection Hlast as <-. reflexivity.
Qed.

Lemma conv_layers_feature_width_witness :
  exists batch time frequency channels,
    fst (conv_loop sample_flags [3; 7; 80; 1]
           (zip3 [32; 32; 96] default_kernel_sizes default_strides) true empty_graph)
      = Return [batch; time; frequency; channels]
    /\ last [32; 32; 96] = Some channels
    /\ length [3; 4; 960] = 3%nat
    /\ [3; 4; 960] !! 2%nat = Some (10 * channels)
    /\ (frequency = 10 -> [3; 4; 960] = [batch; time; frequency * channels])
    /\ ([32; 32; 96] = [32; 32; 96] -> [3; 4; 960] !! 2%nat = Some (10 * 96)).
Proof.
  apply (conv_layers_feature_width sample_flags [3; 7; 80; 1] [32; 32; 96]
           default_kernel_sizes default_strides true empty_graph
           (snd (conv_layers sample_flags [3; 7; 80; 1] [32; 32; 96]
                   default_kernel_sizes default_strides true empty_graph))
           [3; 4; 960] [4; 4; 4]).
  vm_compute. reflexivity.
Defined.

Lemma bind_inv_Raise {S A B} (m : py S A) (k : A -> py S B) s e s'' :
  bind m k s = (Raise e, s'') ->
  m s = (Raise e, s'')
  \/ exists a s', m s = (Return a, s') /\ k a s' = (Raise e, s'').
Proof.
  unfold bind. destruct (m s) as [[a | e'] s'] eqn:E; intros H.
  - right. exists a, s'. split; [reflexivity | exact H].
  - left. injection H as -> ->. reflexivity.
Qed.

(** The loop raises nothing but what [tf.layers.conv2d] raises. *)
Lemma conv_loop_Raise F layers : forall s tr g e g1,
  conv_loop F s layers tr g = (Raise e, g1) ->
  e = ValueError "conv2d: invalid filters, kernel_size or strides"
  \/ e = ValueError "conv2d: input must be 4-dimensional".
Proof.
  induction layers as [| [[fl ks] st] rest IH]; intros s tr g e g1 Hrun;
    [discriminate Hrun |].
  cbn [conv_loop] in Hrun.
  apply bind_inv_Raise in Hrun as [Hconv | (s1 & g2 & _ & Hrun)].
  - revert Hconv. unfold tf_layers_conv2d, build. py_step.
    destruct s as [| b [| t [| f [| c [| ? ?]]]]];
      try (intros [= <- _]; right; reflexivity).
    destruct (layer_args_ok fl ks st); [discriminate |].
    intros [= <- _]. left. reflexivity.
  - apply bind_inv_Raise in Hrun as [Hmin | (s2 & g3 & _ & Hrun)];
      [discriminate Hmin |].
    apply bind_inv_Raise in Hrun as [Hdrop | (s3 & g4 & _ & Hrun)];
      [discriminate Hdrop |].
    eapply IH, Hrun.
Qed.

Lemma zip3_layer_ok (filters : list Z) : forall (ks st : list (Z * Z)),
  Forall (fun n => 0 < n) filters ->
  Forall (fun k => 0 < fst k /\ 0 < snd k) ks ->
  Forall (fun s => 0 < fst s /\ 0 < snd s) st ->
  Forall layer_ok (zip3 filters ks st).
Proof.
  induction filters as [| n filters IH]; intros [| k ks] [| s st] Hf Hk Hs;
    cbn; try constructor.
  - apply Forall_cons in Hf as [Hn _], Hk as [[Hk1 Hk2] _], Hs as [[Hs1 Hs2] _].
    unfold layer_ok, layer_args_ok. cbn.
    repeat (apply andb_true_intro; split); apply Z.ltb_lt; assumption.
  - apply Forall_cons in Hf as [_ Hf], Hk as [_ Hk], Hs as [_ Hs]. now apply IH.
Qed.

(** On a 4-D input and valid layer arguments the loop returns. *)
Lemma conv_loop_ok F layers : forall b t f c tr g,
  Forall layer_ok layers ->
  exists g1,
    conv_loop F [b; t; f; c] layers tr g =
      (Return [b; reduce_axis t (map (fun l => fst (snd l)) layers);
                  reduce_axis f (map (fun l => snd (snd l)) layers);
                  default c (last (map (fun l => fst (fst l)) layers))], g1).
Proof.
  induction layers as [| [[fl ks] st] rest IH]; intros b t f c tr g Hok.
  - exists g. reflexivity.
  - apply Forall_cons in Hok as [Hl Hok]. unfold layer_ok in Hl. cbn in Hl.
    cbn [conv_loop]. unfold tf_layers_conv2d, tf_minimum, tf_layers_dropout, build.
    py_step. rewrite Hl. cbn.
    match goal with
    | |- context [conv_loop F ?s rest tr ?g2] =>
        destruct (IH b (same_out t (fst st)) (same_out f (snd st)) fl tr g2 Hok)
          as [g1 Hg1]
    end.
    exists g1. rewrite Hg1. f_equal. f_equal. f_equal. f_equal. f_equal.
    destruct rest as [| l rest']; [reflexivity |].
    rewrite !map_cons, last_cons_cons.
    destruct (last (_ :: _)) eqn:El; [reflexivity |].
    apply last_None in El. discriminate El.
Qed.

Lemma reshape_shape_ok b t f c :
  0 < b -> 0 < c -> (10 | t * f) ->
  reshape_shape [b; t; f; c] [b; -1; 10 * c] = Return [b; t * f / 10; 10 * c].
Proof.
  intros Hb Hc [k Hk].
  unfold reshape_shape, count_unknown. cbn [existsb].
  assert ((b <? -1) = false) as -> by lia.
  assert ((10 * c <? -1) = false) as -> by lia.
  cbn [orb]. rewrite !filter_cons, !filter_nil.
  repeat case_decide; try lia. cbn [length num_elements fold_right].
  assert ((b * (10 * c * 1) <=? 0) = false) as -> by lia.
  assert (Hq : b * (t * (f * (c * 1))) / (b * (10 * c * 1)) = k).
  { replace (b * (t * (f * (c * 1)))) with (k * (b * (10 * c * 1))) by nia.
    apply Z.div_mul. lia. }
  rewrite Hq.
  assert ((b * (10 * c * 1) * k =? b * (t * (f * (c * 1)))) = true) as ->
    by (apply Z.eqb_eq; nia).
  cbn [map].
  assert ((b =? -1) = false) as -> by lia.
  assert ((10 * c =? -1) = false) as -> by lia.
  cbn. rewrite Hk, Z.div_mul by lia. reflexivity.
Qed.

Lemma conv_layers_equal_lengths_counterexample :
  ~ (forall (F : Flags) (sequences : Shape) (filters : list Z)
            (kernel_sizes strides : list (Z * Z)) (training : bool) (g : Graph),
       length filters = length kernel_sizes ->
       length kernel_sizes = length strides ->
       exists r g',
         conv_layers F sequences filters kernel_sizes strides training g
           = (Return r, g')).
Proof.
  intros H.
  destruct (H sample_flags [2; 5; 80; 1] [] [] [] true empty_graph eq_refl eq_refl)
    as (r & g' & Hrun).
  discriminate Hrun.
Qed.

(** C3 (amended): when two of the three sequences differ in length
    [conv_layers] raises the configuration-mismatch [ValueError] and the
    graph is as it was, no operation built. When the three lengths are
    equal that error is never raised, and the call returns if moreover
    there is at least one layer, the input is 4-D with a positive batch
    size, all filter counts, kernel sizes and strides are positive, and
    the sizes left on the time and frequency axes multiply to a multiple
    of 10. *)
Theorem conv_layers_length_check :
  forall (F : Flags) (sequences : Shape) (filters : list Z)
         (kernel_sizes strides : list (Z * Z)) (training : bool) (g : Graph),
    (length filters <> length kernel_sizes
     \/ length kernel_sizes <> length strides
     \/ length filters <> length strides ->
     conv_layers F sequences filters kernel_sizes strides training g
       = (Raise mismatch_error, g))
    /\ (length filters = length kernel_sizes ->
        length kernel_sizes = length strides ->
        fst (conv_layers F sequences filters kernel_sizes strides training g)
          <> Raise mismatch_error)
    /\ (forall b t f c : Z,
          length filters = length kernel_sizes ->
          length kernel_sizes = length strides ->
          filters <> [] ->
          sequences = [b; t; f; c] ->
          0 < b ->
          Forall (fun n => 0 < n) filters ->
          Forall (fun k => 0 < fst k /\ 0 < snd k) kernel_sizes ->
          Forall (fun s => 0 < fst s /\ 0 < snd s) strides ->
          (10 | reduce_axis t (map fst strides) * reduce_axis f (map snd strides)) ->
          exists output seq_length g',
            conv_layers F sequences filters kernel_sizes strides training g
              = (Return (output, seq_length), g')).
Proof.
  intros F sequences filters ks st tr g. split; [| split].
  - intros Hne. unfold conv_layers.
    destruct (length filters =? length ks)%nat eqn:H1;
      destruct (length ks =? length st)%nat eqn:H2; try reflexivity.
    apply Nat.eqb_eq in H1, H2. lia.
  - intros H1 H2. unfold conv_layers.
    apply Nat.eqb_eq in H1 as ->, H2 as ->. cbn [negb andb].
    destruct (bind _ _ g) as [[r | e] g'] eqn:Hrun; [discriminate |].
    cbn [fst]. intros [= ->].
    apply bind_inv_Raise in Hrun as [Hloop | (s & g1 & _ & Hrun)].
    { apply conv_loop_Raise in Hloop as [Hloop | Hloop]; discriminate Hloop. }
    apply bind_inv_Raise in Hrun as [Hshape | (batch & g2 & _ & Hrun)].
    { revert Hshape. unfold tf_shape_at, build. py_step.
      destruct (s !! 0%nat); discriminate. }
    apply bind_inv_Raise in Hrun as [Hlast | (lf & g3 & _ & Hrun)].
    { revert Hlast. unfold lift, index_last. destruct (last filters); discriminate. }
    apply bind_inv_Raise in Hrun as [Hreshape | (out & g4 & _ & Hrun)].
    { revert Hreshape. unfold tf_reshape, reshape_shape, build. py_step.
      repeat match goal with
             | |- context [if ?b then _ else _] => destruct b
             | |- context [match ?n with O => _ | S _ => _ end] => destruct n
             end; discriminate. }
    apply bind_inv_Raise in Hrun as [Hshape | (time & g5 & _ & Hrun)].
    { revert Hshape. unfold tf_shape_at, build. py_step.
      destruct (out !! 1%nat); discriminate. }
    apply bind_inv_Raise in Hrun as [Hshape | (batch' & g6 & _ & Hrun)].
    { revert Hshape. unfold tf_shape_at, build. py_step.
      destruct (out !! 0%nat); discriminate. }
    apply bind_inv_Raise in Hrun as [Htile | (seq & g7 & _ & Hrun)].
    { revert Htile. unfold tf_tile, build. py_step.
      destruct (batch' <? 0); discriminate. }
    discriminate Hrun.
  - intros b t f c H1 H2 Hne -> Hb Hf Hk Hs Hdiv.
    pose proof (zip3_layer_ok filters ks st Hf Hk Hs) as Hok.
    destruct (conv_loop_ok F _ b t f c tr g Hok) as [g1 Hloop].
    destruct (zip3_filters filters ks st H1 H2) as [Hzf Hzs].
    assert (Ht : map (fun l : Z * (Z * Z) * (Z * Z) => fst (snd l)) (zip3 filters ks st)
                 = map fst st).
    { rewrite <- Hzs at 2. rewrite map_map. reflexivity. }
    assert (Hfq : map (fun l : Z * (Z * Z) * (Z * Z) => snd (snd l)) (zip3 filters ks st)
                  = map snd st).
    { rewrite <- Hzs at 2. rewrite map_map. reflexivity. }
    rewrite Hzf, Ht, Hfq in Hloop.
    destruct (last filters) as [lf |] eqn:Hlast;
      [| apply last_None in Hlast; contradiction].
    assert (Hlf : 0 < lf).
    { apply last_Some in Hlast as [l' ->].
      apply Forall_app in Hf as [_ Hf]. now apply Forall_cons in Hf as [Hf _]. }
    cbn [default] in Hloop.
    unfold conv_layers. apply Nat.eqb_eq in H1 as ->, H2 as ->. cbn [negb andb].
    erewrite bind_Return by exact Hloop.
    unfold tf_shape_at at 1. unfold build. py_step. cbn.
    unfold index_last. rewrite Hlast.
    unfold tf_reshape, build. py_step.
    rewrite (reshape_shape_ok b _ _ lf Hb Hlf Hdiv).
    unfold tf_shape_at, tf_tile, build. py_step. cbn.
    assert ((b <? 0) = false) as -> by lia. cbn.
    eexists _, _, _. reflexivity.
Qed.

Lemma conv_layers_length_check_witness :
  conv_layers sample_flags [3; 7; 80; 1] [32; 32] default_kernel_sizes default_strides
    true empty_graph = (Raise mismatch_error, empty_graph)
  /\ exists output seq_length g',
       conv_layers sample_flags [3; 7; 80; 1] [32; 32; 96] default_kernel_sizes
         default_strides true empty_graph = (Return (output, seq_length), g').
Proof.
  split.
  - apply (conv_layers_length_check sample_flags [3; 7; 80; 1] [32; 32]
             default_kernel_sizes default_strides true empty_graph).
    left. cbn. lia.
  - apply (proj2 (proj2 (conv_layers_length_check sample_flags [3; 7; 80; 1]
             [32; 32; 96] default_kernel_sizes default_strides true empty_graph))
             3 7 80 1);
      try reflexivity; try discriminate; try lia.
    + repeat constructor.
    + repeat constructor.
    + repeat constructor.
    + exists 4. reflexivity.
Defined.

(** ** tf_contrib.py: recurrent cells *)

Lemma keep_prob_bounds (dropout : Q) :
  (0 <= Py.min 1 (Py.max 0 (1 - dropout)) <= 1)%Q.
Proof.
  unfold Py.min, Py.max.
  destruct (Qlt_le_dec 0 (1 - dropout));
    repeat match goal with
           | |- context [Qlt_le_dec ?a ?b] => destruct (Qlt_le_dec a b)
           end; lra.
Qed.

Lemma keep_prob_clamp (dropout : Q) :
  (Py.min 1 (Py.max 0 (1 - dropout)) == clamp (1 - dropout) 0 1)%Q.
Proof.
  unfold Py.min, Py.max, clamp.
  destruct (Qlt_le_dec 0 (1 - dropout));
    repeat match goal with
           | |- context [Qlt_le_dec ?a ?b] => destruct (Qlt_le_dec a b)
           end; lra.
Qed.

Lemma comprehension_const {A B} (y : B) (xs : list A) :
  comprehension (fun _ => Return y) xs = Return (replicate (length xs) y).
Proof.
  induction xs as [| x xs IH]; [reflexivity |]. cbn. now rewrite IH.
Qed.

Lemma length_range (n : Z) : length (range n) = Z.to_nat n.
Proof. unfold range. now rewrite length_map, length_seq. Qed.

(** The two lists [bidirectional_cells] returns, in closed form. *)
Lemma bidirectional_cells_Return F nu nl dropout :
  let keep_prob := Py.min 1 (Py.max 0 (1 - default 1%Q dropout)) in
  let wrapped :=
    {| cell := {| num_units := nu; activation := "tanh" |};
       input_keep_prob := keep_prob; output_keep_prob := keep_prob;
       seed := random_seed F |} in
  bidirectional_cells F nu nl dropout
    = Return (replicate (Z.to_nat nl) wrapped, replicate (Z.to_nat nl) wrapped).
Proof.
  intros keep_prob wrapped. unfold bidirectional_cells.
  fold keep_prob.
  destruct (keep_prob_bounds (default 1%Q dropout)) as [H0 H1].
  fold keep_prob in H0, H1. subst wrapped. clearbody keep_prob.
  assert (Hcell : create_cell F nu (Some keep_prob)
                  = Return {| cell := {| num_units := nu; activation := "tanh" |};
                              input_keep_prob := keep_prob;
                              output_keep_prob := keep_prob;
                              seed := random_seed F |}).
  { unfold create_cell, tf_DropoutWrapper. cbn [default forallb].
    unfold id. apply Qle_bool_iff in H0, H1. rewrite H0, H1. reflexivity. }
  rewrite Hcell, !comprehension_const, length_range. reflexivity.
Qed.

(** C5: for every dropout value, [bidirectional_cells] returns two lists
    of [num_layers] cells, and every cell of both lists keeps inputs and
    outputs with probability clamp(1 - dropout, 0, 1); with dropout 0
    that probability is 1 and with dropout 1 it is 0. *)
Theorem bidirectional_cells_keep_prob :
  forall (F : Flags) (num_units num_layers : Z) (dropout : Q),
    let keep := clamp (1 - dropout) 0 1 in
    let kept (c : DropoutWrapper) :=
      (input_keep_prob c == keep)%Q /\ (output_keep_prob c == keep)%Q in
    let n := Z.to_nat num_layers in
    (exists fw bw,
       bidirectional_cells F num_units num_layers (Some dropout) = Return (fw, bw)
       /\ length fw = n /\ length bw = n
       /\ Forall kept fw /\ Forall kept bw)
    /\ bidirectional_cells F num_units num_layers (Some 0%Q)
        = Return (replicate n (wrapped_cell num_units 1 (random_seed F)),
                  replicate n (wrapped_cell num_units 1 (random_seed F)))
    /\ bidirectional_cells F num_units num_layers (Some 1%Q)
        = Return (replicate n (wrapped_cell num_units 0 (random_seed F)),
                  replicate n (wrapped_cell num_units 0 (random_seed F))).
Proof.
  intros F nu nl dropout keep kept n. split; [| split].
  - eexists _, _. split; [apply bidirectional_cells_Return |].
    rewrite !length_replicate. split; [reflexivity |]. split; [reflexivity |].
    assert (Hall : Forall kept
              (replicate n
                 {| cell := {| num_units := nu; activation := "tanh" |};
                    input_keep_prob := Py.min 1 (Py.max 0 (1 - default 1%Q (Some dropout)));
                    output_keep_prob := Py.min 1 (Py.max 0 (1 - default 1%Q (Some dropout)));
                    seed := random_seed F |})).
    { apply Forall_replicate. subst kept keep. cbn.
      split; apply keep_prob_clamp. }
    split; exact Hall.
  - rewrite bidirectional_cells_Return. reflexivity.
  - rewrite bidirectional_cells_Return. reflexivity.
Qed.

(** C10: without a dropout argument the default 1.0 is used, so each of
    the [num_layers] forward and backward cells is wrapped with input and
    output keep probability 0, that is, drop probability 1. *)
Theorem bidirectional_cells_default_dropout :
  forall (F : Flags) (num_units num_layers : Z),
    let n := Z.to_nat num_layers in
    bidirectional_cells F num_units num_layers None
      = bidirectional_cells F num_units num_layers (Some 1%Q)
    /\ bidirectional_cells F num_units num_layers None
        = Return (replicate n (wrapped_cell num_units 0 (random_seed F)),
                  replicate n (wrapped_cell num_units 0 (random_seed F)))
    /\ input_keep_prob (wrapped_cell num_units 0 (random_seed F)) = 0%Q
    /\ output_keep_prob (wrapped_cell num_units 0 (random_seed F)) = 0%Q
    /\ (1 - input_keep_prob (wrapped_cell num_units 0 (random_seed F)) == 1)%Q
    /\ (1 - output_keep_prob (wrapped_cell num_units 0 (random_seed F)) == 1)%Q.
Proof.
  intros F nu nl n. split; [reflexivity |]. split.
  - rewrite bidirectional_cells_Return. reflexivity.
  - repeat split; reflexivity.
Qed.

(** ** tf_contrib.py: variables *)

Lemma get_collection_add_eq name value g :
  get_collection name (snd (tf_add_to_collection name value g))
    = get_collection name g ++ [value].
Proof.
  unfold tf_add_to_collection, modify, get_collection. cbn.
  now rewrite lookup_insert_eq.
Qed.

Lemma get_collection_add_ne name name' value g :
  name <> name' ->
  collections (snd (tf_add_to_collection name value g)) !! name'
    = collections g !! name'.
Proof.
  intros Hne. unfold tf_add_to_collection, modify. cbn.
  now rewrite lookup_insert_ne.
Qed.

Lemma shape_accepted (shape : list Z) :
  Forall (fun d => 0 <= d) shape -> existsb (fun d => d <? 0) shape = false.
Proof.
  induction 1 as [| d shape Hd _ IH]; [reflexivity |].
  cbn. rewrite IH. assert ((d <? 0) = false) as -> by lia. reflexivity.
Qed.

Lemma shape_refused (shape : list Z) :
  ~ Forall (fun d => 0 <= d) shape -> existsb (fun d => d <? 0) shape = true.
Proof.
  intros Hbad. destruct (existsb _ shape) eqn:E; [reflexivity |].
  exfalso. apply Hbad. apply Forall_forall. intros d Hd.
  destruct (Z.ltb_spec d 0) as [Hneg | Hok]; [| exact Hok].
  assert (Hex : existsb (fun d => d <? 0) shape = true).
  { apply existsb_exists. exists d. split; [now apply list_elem_of_In | lia]. }
  congruence.
Qed.

(** Creating a variable of an accepted shape under a new name returns it
    and leaves the 'losses' collection alone. *)
Lemma variable_on_cpu_fresh TF_FLOAT name shape initializer g :
  variables g !! name = None ->
  Forall (fun d => 0 <= d) shape ->
  exists g',
    variable_on_cpu TF_FLOAT name shape initializer g =
      (Return {| var_name := name; var_shape := shape;
                 var_initializer := initializer; var_dtype := TF_FLOAT;
                 var_device := "/cpu:0" |}, g')
    /\ collections g' !! "losses" = collections g !! "losses"
    /\ variables g' !! name
       = Some {| var_name := name; var_shape := shape;
                 var_initializer := initializer; var_dtype := TF_FLOAT;
                 var_device := "/cpu:0" |}.
Proof.
  intros Hfresh Hshape. unfold variable_on_cpu, tf_get_variable.
  rewrite (shape_accepted shape Hshape).
  unfold bind at 1. unfold get. rewrite Hfresh.
  unfold build, tf_add_to_collection. py_step.
  eexists. split; [reflexivity |]. cbn. split.
  - rewrite !lookup_insert_ne by discriminate. reflexivity.
  - apply lookup_insert_eq.
Qed.

(** A call whose variable cannot be created raises [ValueError] and
    leaves the graph as it was. *)
Lemma variable_with_weight_decay_refused TF_FLOAT name shape stddev wd g :
  is_Some (variables g !! name) \/ ~ Forall (fun d => 0 <= d) shape ->
  exists msg,
    variable_with_weight_decay TF_FLOAT name shape stddev wd g
      = (Raise (ValueError msg), g).
Proof.
  intros Hbad. unfold variable_with_weight_decay, variable_on_cpu, tf_get_variable.
  destruct (existsb (fun d => d <? 0) shape) eqn:Hshape.
  - eexists. reflexivity.
  - destruct Hbad as [[v Hv] | Hbad].
    + unfold bind at 1. unfold bind at 1. unfold get. rewrite Hv.
      eexists. reflexivity.
    + apply shape_refused in Hbad. congruence.
Qed.

Lemma variable_with_weight_decay_losses_counterexample :
  ~ (forall (TF_FLOAT name : string) (shape : list Z) (stddev wd : Q) (g : Graph),
       get_collection "losses"
         (snd (variable_with_weight_decay TF_FLOAT name shape stddev (Some wd) g))
       = get_collection "losses" g ++ [Mul (L2Loss (VarRead name)) (Const wd)]).
Proof.
  intros H.
  specialize (H "float32" "b" [29] 0.04%Q 0.004%Q
                (snd (variable_with_weight_decay "float32" "b" [29] 0.04 None
                        empty_graph))).
  vm_compute in H. discriminate H.
Qed.

(** C7 (amended): a call of [variable_with_weight_decay] that creates its
    variable, that is, with a name not yet in the variable store and a
    shape without negative dimension, returns the same variable whether
    or not a weight decay is given. With a weight decay [wd] it appends
    one tensor to the 'losses' collection, [l2_loss(var) * wd], whose
    value is [wd] times the sum of the squared entries of the variable,
    halved; with none, the 'losses' collection is as it was. A call with
    a name already in the store or a negative dimension raises
    [ValueError] and leaves the graph, 'losses' included, as it was. *)
Theorem variable_with_weight_decay_losses :
  forall (TF_FLOAT name : string) (shape : list Z) (stddev : Q) (g : Graph),
    (variables g !! name = None ->
     Forall (fun d => 0 <= d) shape ->
     let var :=
       {| var_name := name; var_shape := shape;
          var_initializer := truncated_normal_initializer stddev TF_FLOAT;
          var_dtype := TF_FLOAT; var_device := "/cpu:0" |} in
     (forall wd : Q,
        let term := Mul (L2Loss (VarRead name)) (Const wd) in
        exists g',
          variable_with_weight_decay TF_FLOAT name shape stddev (Some wd) g
            = (Return var, g')
          /\ get_collection "losses" g' = get_collection "losses" g ++ [term]
          /\ forall env : string -> list Q,
               exists value,
                 eval env term = Some value
                 /\ (value == wd * sum_squares (env name) / 2)%Q)
     /\ (exists g',
           variable_with_weight_decay TF_FLOAT name shape stddev None g
             = (Return var, g')
           /\ collections g' !! "losses" = collections g !! "losses"
           /\ get_collection "losses" g' = get_collection "losses" g))
    /\ (is_Some (variables g !! name) \/ ~ Forall (fun d => 0 <= d) shape ->
        forall weight_decay : option Q,
          exists msg,
            variable_with_weight_decay TF_FLOAT name shape stddev weight_decay g
              = (Raise (ValueError msg), g)).
Proof.
  intros TF_FLOAT name shape stddev g. split.
  - intros Hfresh Hshape var.
    destruct (variable_on_cpu_fresh TF_FLOAT name shape
                (truncated_normal_initializer stddev TF_FLOAT) g Hfresh Hshape)
      as (g1 & Hvar & Hlosses & _).
    fold var in Hvar. split.
    + intros wd term. unfold variable_with_weight_decay.
      erewrite bind_Return by exact Hvar.
      unfold tf_nn_l2_loss, tf_multiply, build. py_step.
      eexists. split; [reflexivity |]. split.
      * unfold tf_add_to_collection, modify, get_collection. cbn.
        rewrite lookup_insert_eq. cbn. rewrite Hlosses. reflexivity.
      * intros env. eexists. split; [reflexivity |]. cbn. field.
    + unfold variable_with_weight_decay.
      erewrite bind_Return by exact Hvar. py_step.
      exists g1. split; [reflexivity |]. split; [exact Hlosses |].
      unfold get_collection. now rewrite Hlosses.
  - intros Hbad wd. now apply variable_with_weight_decay_refused.
Qed.

Lemma variable_with_weight_decay_losses_witness :
  (exists g',
     variable_with_weight_decay "float32" "softmax_weights" [960; 29] 0.04 (Some 0.004%Q)
       empty_graph
       = (Return {| var_name := "softmax_weights"; var_shape := [960; 29];
                    var_initializer := truncated_normal_initializer 0.04 "float32";
                    var_dtype := "float32"; var_device := "/cpu:0" |}, g')
     /\ get_collection "losses" g'
        = [Mul (L2Loss (VarRead "softmax_weights")) (Const 0.004)])
  /\ (exists g',
        variable_with_weight_decay "float32" "softmax_weights" [960; 29] 0.04 None
          empty_graph
          = (Return {| var_name := "softmax_weights"; var_shape := [960; 29];
                       var_initializer := truncated_normal_initializer 0.04 "float32";
                       var_dtype := "float32"; var_device := "/cpu:0" |}, g')
        /\ get_collection "losses" g' = [])
  /\ (exists msg,
        variable_with_weight_decay "float32" "softmax_weights" [960; -3] 0.04
          (Some 0.004%Q) empty_graph = (Raise (ValueError msg), empty_graph)).
Proof.
  destruct (variable_with_weight_decay_losses "float32" "softmax_weights"
              [960; 29] 0.04%Q empty_graph) as [Hcreated _].
  destruct Hcreated as [Hsome Hnone]; [reflexivity | repeat constructor; lia |].
  destruct (variable_with_weight_decay_losses "float32" "softmax_weights"
              [960; -3] 0.04%Q empty_graph) as [_ Hrefused].
  split; [| split].
  - destruct (Hsome 0.004%Q) as (g' & Hrun & Hcoll & _).
    exists g'. split; [exact Hrun | exact Hcoll].
  - destruct Hnone as (g' & Hrun & _ & Hcoll).
    exists g'. split; [exact Hrun | exact Hcoll].
  - apply Hrefused. right. intros Hall.
    apply Forall_cons in Hall as [_ Hall]. apply Forall_cons in Hall as [Hneg _]. lia.
Defined.

(** ** tf_contrib.py: the logging optimizer *)

(** C2: for a variable whose Adam slots exist, and a base class whose
    returned update does not depend on the other nodes of the graph it is
    built in, [AdamOptimizerLogger._apply_dense] returns the very update
    of the base class for the same optimizer, gradient and variable. What
    it adds is confined to the graph: it runs the base method on a graph
    that differs from the given one by the arithmetic nodes and by two
    entries of the 'summaries' collection, the step estimate and the
    estimated learning rate; variables and other collections are as they
    were. *)
Theorem logger_apply_dense_same_update :
  forall (super_apply_dense : AdamOptimizer -> Tensor -> TfVariable -> py Graph Operation)
         (self : AdamOptimizer) (grad : Tensor) (var : TfVariable) (g : Graph)
         (m v : Tensor),
    get_slot self var "m" = Some m ->
    get_slot self var "v" = Some v ->
    (forall g1 g2 : Graph,
       fst (super_apply_dense self grad var g1) = fst (super_apply_dense self grad var g2)) ->
    fst (AdamOptimizerLogger._apply_dense super_apply_dense self grad var g)
      = fst (super_apply_dense self grad var g)
    /\ exists g_logged,
         AdamOptimizerLogger._apply_dense super_apply_dense self grad var g
           = super_apply_dense self grad var g_logged
         /\ variables g_logged = variables g
         /\ (forall c : string,
               c <> "summaries" -> collections g_logged !! c = collections g !! c)
         /\ get_collection "summaries" g_logged
            = get_collection "summaries" g
              ++ [HistogramSummary "step" (step_estimate self m v);
                  ScalarSummary "estimated_lr" (estimated_lr self)].
Proof.
  intros super self grad var g m v Hm Hv Hframe.
  unfold AdamOptimizerLogger._apply_dense.
  rewrite Hm, Hv. unfold _get_beta_accumulators.
  cbv [binop operand tf_sqrt tf_summary_histogram tf_summary_scalar
       tf_add_to_collection build bind ret raise modify
       fst snd variables collections ops].
  split; [apply Hframe |].
  eexists. split; [reflexivity |]. cbn [variables collections ops].
  split; [reflexivity |]. split.
  - intros c Hc. rewrite !lookup_insert_ne by congruence. reflexivity.
  - unfold get_collection. cbn [variables collections ops].
    rewrite !lookup_insert_eq. cbn [default]. unfold id.
    rewrite <- app_assoc. reflexivity.
Qed.

Lemma logger_apply_dense_same_update_witness :
  fst (AdamOptimizerLogger._apply_dense AdamOptimizer._apply_dense
         sample_optimizer (Named "gradients/dense/kernel") sample_variable empty_graph)
    = fst (AdamOptimizer._apply_dense
             sample_optimizer (Named "gradients/dense/kernel") sample_variable empty_graph).
Proof.
  apply (logger_apply_dense_same_update AdamOptimizer._apply_dense sample_optimizer
           (Named "gradients/dense/kernel") sample_variable empty_graph
           (Named "dense/kernel/Adam") (Named "dense/kernel/Adam_1")).
  - reflexivity.
  - reflexivity.
  - intros g1 g2. reflexivity.
Defined.

(** * Further properties *)

(** ** storage.py: the latest tag *)

Section Sorted.

Context {A : Type} (key : A -> Z).

Lemma insert_by_at_end (x : A) (s : list A) :
  Forall (fun y => key y <= key x) s -> insert_by key x s = s ++ [x].
Proof.
  induction 1 as [| y s Hy _ IH]; [reflexivity |].
  cbn. apply Z.leb_le in Hy. now rewrite Hy, IH.
Qed.

Lemma insert_by_last (x best : A) (s : list A) :
  last s = Some best -> key x < key best ->
  last (insert_by key x s) = Some best.
Proof.
  revert best. induction s as [| y s IH]; intros best Hlast Hlt; [discriminate |].
  cbn [insert_by]. destruct (key y <=? key x) eqn:Hle.
  - destruct s as [| z s'].
    + cbn in Hlast. injection Hlast as ->. apply Z.leb_le in Hle. lia.
    + rewrite last_cons_cons in Hlast. specialize (IH _ Hlast Hlt).
      destruct (insert_by key x (z :: s')) as [| u s''] eqn:E; [discriminate IH |].
      rewrite last_cons_cons. exact IH.
  - rewrite last_cons_cons. exact Hlast.
Qed.

Lemma insert_by_Forall (P : A -> Prop) (x : A) (s : list A) :
  P x -> Forall P s -> Forall P (insert_by key x s).
Proof.
  intros Hx. induction 1 as [| y s Hy Hs IH]; cbn.
  - repeat constructor. exact Hx.
  - destruct (key y <=? key x); repeat constructor; assumption.
Qed.

Lemma sorted_snoc (l : list A) (x : A) :
  sorted key (l ++ [x]) = insert_by key x (sorted key l).
Proof. unfold sorted. now rewrite fold_left_app. Qed.

(** The last element of [sorted key l] is the element of [l] with the
    greatest key that comes last in [l]. *)
Lemma sorted_last (l : list A) :
  l <> [] ->
  exists best before after,
    last (sorted key l) = Some best
    /\ l = before ++ best :: after
    /\ Forall (fun y => key y <= key best) before
    /\ Forall (fun y => key y < key best) after
    /\ Forall (fun y => key y <= key best) (sorted key l).
Proof.
  induction l as [| x l IH] using rev_ind; [congruence |]. intros _.
  rewrite sorted_snoc.
  destruct l as [| x0 l0].
  - exists x, [], []. cbn. repeat split; repeat constructor; lia.
  - destruct IH as (best & before & after & Hlast & Hl & Hb & Ha & Hs);
      [discriminate |].
    destruct (Z_le_gt_dec (key best) (key x)) as [Hle | Hgt].
    + exists x, (x0 :: l0), [].
      assert (Hall : Forall (fun y => key y <= key x) (sorted key (x0 :: l0))).
      { eapply Forall_impl; [exact Hs |]. cbn. intros. lia. }
      rewrite (insert_by_at_end x _ Hall), last_snoc.
      split; [reflexivity |]. split; [reflexivity |]. split.
      * rewrite Hl. apply Forall_app. split.
        -- eapply Forall_impl; [exact Hb |]. cbn. intros. lia.
        -- constructor; [exact Hle |].
           eapply Forall_impl; [exact Ha |]. cbn. intros. lia.
      * split; [constructor |]. apply Forall_app. split; [exact Hall |].
        repeat constructor. lia.
    + exists best, before, (after ++ [x]).
      split; [apply insert_by_last; [exact Hlast | lia] |].
      split; [rewrite Hl, <- app_assoc; reflexivity |].
      split; [exact Hb |]. split.
      * apply Forall_app. split; [exact Ha |]. repeat constructor. lia.
      * apply insert_by_Forall; [lia | exact Hs].
Qed.

End Sorted.

(** X1: in a repository with at least one tag, [git_latest_tag] returns
    the name of the tag whose commit is the most recent; when several
    tags share that date it is the one listed last in [repo.tags]. The
    repository is not changed. *)
Theorem git_latest_tag_is_latest :
  forall (repo : Repo),
    tags repo <> [] ->
    exists (t : TagReference) (before after : list TagReference),
      git_latest_tag repo = (Return (tag_name t), repo)
      /\ tags repo = before ++ t :: after
      /\ Forall (fun t' => committed_datetime (tag_commit t')
                           <= committed_datetime (tag_commit t)) before
      /\ Forall (fun t' => committed_datetime (tag_commit t')
                           < committed_datetime (tag_commit t)) after.
Proof.
  intros repo Hne.
  destruct (sorted_last (fun t => committed_datetime (tag_commit t)) (tags repo) Hne)
    as (t & before & after & Hlast & Htags & Hb & Ha & _).
  exists t, before, after.
  split; [| split; [exact Htags | split; [exact Hb | exact Ha]]].
  unfold git_latest_tag, open_repo, index_last. py_step. rewrite Hlast. reflexivity.
Qed.

Lemma git_latest_tag_is_latest_witness :
  exists (t : TagReference) (before after : list TagReference),
    git_latest_tag tagged_repo = (Return (tag_name t), tagged_repo)
    /\ tags tagged_repo = before ++ t :: after
    /\ Forall (fun t' => committed_datetime (tag_commit t')
                         <= committed_datetime (tag_commit t)) before
    /\ Forall (fun t' => committed_datetime (tag_commit t')
                         < committed_datetime (tag_commit t)) after.
Proof.
  apply (git_latest_tag_is_latest tagged_repo). discriminate.
Defined.

(** ** storage.py: more on deletion *)

Lemma os_remove_success path w rest :
  fs w !! path = Some File ->
  faults w = None :: rest \/ (faults w = [] /\ rest = []) ->
  os_remove path w =
    (Return tt, {| fs := delete path (fs w); faults := rest;
                   trace := trace w ++ [EvRemove path] |}).
Proof.
  intros Hfile Hf. unfold os_remove, emit, next_fault. py_step.
  destruct Hf as [Hf | [Hf ->]]; rewrite Hf; cbn; rewrite Hfile; cbn;
    rewrite ?Hf; reflexivity.
Qed.

Lemma removals_failed_attempts path n : forall i,
  removals (failed_attempts path i n) = n.
Proof.
  induction n as [| n IH]; intros i; [reflexivity |].
  cbn. now rewrite IH.
Qed.

Lemma sleeps_failed_attempts path n : forall i,
  sleeps (failed_attempts path i n) = replicate n 1.
Proof.
  induction n as [| n IH]; intros i; [reflexivity |].
  cbn. now rewrite IH.
Qed.

Lemma sleeps_app evs1 evs2 : sleeps (evs1 ++ evs2) = sleeps evs1 ++ sleeps evs2.
Proof.
  induction evs1 as [| [] evs1 IH]; cbn; auto. now rewrite IH.
Qed.

(** The loop over the indices [i, i+1, ...] when the first [length es]
    attempts fail with caught exceptions and the next one succeeds. *)
Lemma delete_file_loop_recovers path (es : list exn) : forall (i : nat) (n : nat) w rest,
  fs w !! path = Some File ->
  faults w = map Some es ++ None :: rest ->
  Forall (fun e => is_OSError e || is_ValueError e = true) es ->
  (length es < n)%nat ->
  (i + length es <= 4)%nat ->
  delete_file_loop path (map Z.of_nat (seq i n)) w =
    (Return tt,
     {| fs := delete path (fs w); faults := rest;
        trace := trace w ++ failed_attempts path (Z.of_nat i) (length es)
                         ++ [EvRemove path] |}).
Proof.
  induction es as [| e es IH]; intros i n w rest Hfile Hf Hc Hn Hi.
  - destruct n as [| n]; [cbn in Hn; lia |].
    cbn [seq map delete_file_loop]. unfold try_except.
    rewrite (os_remove_success path w rest Hfile) by (left; exact Hf).
    reflexivity.
  - destruct n as [| n]; [cbn in Hn; lia |].
    apply Forall_cons in Hc as [He Hc].
    cbn [seq map].
    rewrite (delete_file_loop_failed path _ _ w e (map Some es ++ None :: rest) Hf He).
    assert ((Z.of_nat i =? 4) = false) as -> by (cbn in Hi; lia).
    rewrite (IH (S i) n _ rest); cbn [fs faults trace length] in *;
      try assumption; try reflexivity; try lia.
    cbn [failed_attempts]. rewrite <- !app_assoc.
    replace (Z.of_nat i + 1) with (Z.of_nat (S i)) by lia. reflexivity.
Qed.

(** X2: when a file exists, up to four removal attempts in a row fail
    with an [OSError] or a [ValueError] and the next one goes through,
    [delete_file_if_exists] returns normally: the file is gone, one
    second was slept after each failure, and exactly one more attempt
    than there were failures was made. *)
Theorem delete_file_recovers_from_transient_failures :
  forall (path : string) (w : world) (es : list exn) (rest : list (option exn)),
    fs w !! path = Some File ->
    faults w = map Some es ++ None :: rest ->
    Forall (fun e => is_OSError e || is_ValueError e = true) es ->
    (length es <= 4)%nat ->
    let evs := failed_attempts path 0 (length es) ++ [EvRemove path] in
    delete_file_if_exists path w =
      (Return tt,
       {| fs := delete path (fs w); faults := rest; trace := trace w ++ evs |})
    /\ removals evs = S (length es)
    /\ sleeps evs = replicate (length es) 1.
Proof.
  intros path w es rest Hfile Hf Hc Hlen evs. split; [| split].
  - rewrite (delete_file_if_exists_file _ _ Hfile).
    apply (delete_file_loop_recovers path es 0 5 w rest Hfile Hf Hc); lia.
  - subst evs. rewrite removals_app, removals_failed_attempts. cbn. lia.
  - subst evs. rewrite sleeps_app, sleeps_failed_attempts. cbn.
    now rewrite app_nil_r.
Qed.

Lemma delete_file_recovers_from_transient_failures_witness :
  fst (delete_file_if_exists "train/model.ckpt" flaky_world) = Return tt
  /\ fs (snd (delete_file_if_exists "train/model.ckpt" flaky_world))
       !! "train/model.ckpt" = None
  /\ sleeps (trace (snd (delete_file_if_exists "train/model.ckpt" flaky_world)))
     = [1; 1].
Proof.
  destruct (delete_file_recovers_from_transient_failures "train/model.ckpt" flaky_world
              [OSError "busy"; ValueError "embedded null byte"] [])
    as (Hrun & _ & _).
  - reflexivity.
  - reflexivity.
  - repeat constructor.
  - cbn. lia.
  - rewrite Hrun. cbn [fst snd fs trace]. split; [reflexivity |].
    split; [apply lookup_delete_eq | reflexivity].
Defined.

(** X3: an exception of the removal that is neither an [OSError] nor a
    [ValueError] is not retried: it leaves [delete_file_if_exists] after
    the first attempt, with no warning printed, no sleep, and the file
    still in place. *)
Theorem delete_file_uncaught_exception_propagates :
  forall (path : string) (w : world) (e : exn) (rest : list (option exn)),
    fs w !! path = Some File ->
    faults w = Some e :: rest ->
    is_OSError e || is_ValueError e = false ->
    delete_file_if_exists path w =
      (Raise e, {| fs := fs w; faults := rest; trace := trace w ++ [EvRemove path] |}).
Proof.
  intros path w e rest Hfile Hf Hc.
  rewrite (delete_file_if_exists_file _ _ Hfile).
  cbn [delete_file_loop]. unfold try_except.
  rewrite (os_remove_fault path w e rest Hf), Hc. reflexivity.
Qed.

Lemma delete_file_uncaught_exception_propagates_witness :
  delete_file_if_exists "train/model.ckpt" hostile_world =
    (Raise (TypeError "remove: path should be string"),
     {| fs := fs hostile_world; faults := [];
        trace := [EvRemove "train/model.ckpt"] |}).
Proof.
  apply (delete_file_uncaught_exception_propagates "train/model.ckpt" hostile_world);
    reflexivity.
Defined.

Lemma os_remove_tree path w :
  (exists e, fst (os_remove path w) = Raise e
             /\ fs (snd (os_remove path w)) = fs w)
  \/ (fst (os_remove path w) = Return tt
      /\ fs (snd (os_remove path w)) = delete path (fs w)).
Proof.
  unfold os_remove, emit, next_fault. py_step.
  destruct (faults w) as [| [e |] rest]; cbn;
    try (left; eexists; split; reflexivity);
    (destruct (fs w !! path) as [[|] |]; cbn;
     [right; split; reflexivity | left; eexists; split; reflexivity
      | left; eexists; split; reflexivity]).
Qed.

Lemma delete_file_loop_tree path idxs : forall w,
  fs (snd (delete_file_loop path idxs w)) = fs w
  \/ fs (snd (delete_file_loop path idxs w)) = delete path (fs w).
Proof.
  induction idxs as [| i rest IH]; intros w; [left; reflexivity |].
  cbn [delete_file_loop]. unfold try_except.
  destruct (os_remove_tree path w) as [(e & Hr & Hfs) | [Hr Hfs]];
    destruct (os_remove path w) as [[[] | e'] w1]; cbn [fst snd] in *;
    try discriminate.
  - injection Hr as ->.
    destruct (is_OSError e || is_ValueError e); [| left; exact Hfs].
    unfold print, time_sleep, emit. py_step.
    destruct (i =? 4); [left; exact Hfs |].
    match goal with
    | |- context [delete_file_loop path rest ?w2] =>
        destruct (IH w2) as [H | H]; rewrite H; cbn [fs]; rewrite Hfs; auto
    end.
  - right. exact Hfs.
Qed.

(** X4: whatever the operating system does, [delete_file_if_exists]
    changes the file tree at most by removing [path] itself: no other
    entry is touched and none is created. When it returns normally and
    [path] was a file, [path] is gone. *)
Theorem delete_file_if_exists_touches_only_path :
  forall (path : string) (w : world),
    let w' := snd (delete_file_if_exists path w) in
    (fs w' = fs w \/ fs w' = delete path (fs w))
    /\ (forall q : string, q <> path -> fs w' !! q = fs w !! q)
    /\ (fst (delete_file_if_exists path w) = Return tt ->
        fs w !! path = Some File -> fs w' !! path = None).
Proof.
  intros path w w'.
  assert (Htree : fs w' = fs w \/ fs w' = delete path (fs w)).
  { subst w'. destruct (fs w !! path) as [[|] |] eqn:Hp.
    - rewrite (delete_file_if_exists_file _ _ Hp). apply delete_file_loop_tree.
    - rewrite delete_file_if_exists_other by congruence. left. reflexivity.
    - rewrite delete_file_if_exists_other by congruence. left. reflexivity. }
  split; [exact Htree |]. split.
  - intros q Hq. destruct Htree as [-> | ->]; [reflexivity |].
    now apply lookup_delete_ne.
  - intros Hret Hfile. subst w'.
    rewrite (delete_file_if_exists_file _ _ Hfile) in *.
    destruct (delete_file_loop path [0; 1; 2; 3; 4] w) as [r w1] eqn:Hloop.
    cbn [fst snd] in *. subst r.
    eapply delete_file_loop_Return; [| exact Hloop]. reflexivity.
Qed.

Lemma delete_file_if_exists_touches_only_path_witness :
  fs (snd (delete_file_if_exists "train/model.ckpt" flaky_world)) !! "train.log"
    = fs flaky_world !! "train.log".
Proof.
  apply (delete_file_if_exists_touches_only_path "train/model.ckpt" flaky_world).
  discriminate.
Defined.

(** X5: [delete_directory_if_exists] does nothing on a path that is not
    a directory. On a directory, when the operating system lets the
    removal through, it returns normally; the directory and every path
    below it are gone and every other entry is as before. *)
Theorem delete_directory_if_exists_removes_tree :
  forall (path : string) (w : world),
    (fs w !! path <> Some Directory ->
     delete_directory_if_exists path w = (Return tt, w))
    /\ (forall rest : list (option exn),
          fs w !! path = Some Directory ->
          faults w = None :: rest ->
          exists w',
            delete_directory_if_exists path w = (Return tt, w')
            /\ faults w' = rest
            /\ trace w' = trace w ++ [EvRmtree path]
            /\ forall p : string,
                 fs w' !! p = if under path p then None else fs w !! p).
Proof.
  intros path w. split.
  - intros Hnd. unfold delete_directory_if_exists, os_path_exists, os_path_isdir.
    py_step.
    destruct (fs w !! path) as [[|] |] eqn:E; cbn; rewrite ?E; try reflexivity.
    now destruct Hnd.
  - intros rest Hdir Hf.
    unfold delete_directory_if_exists, os_path_exists, os_path_isdir,
      shutil_rmtree, emit, next_fault.
    py_step. rewrite Hdir. cbn. rewrite Hdir, Hf. cbn. rewrite Hdir. cbn.
    eexists. split; [reflexivity |]. cbn [fs faults trace].
    split; [reflexivity |]. split; [reflexivity |].
    intros p. destruct (under path p) eqn:Hu.
    + apply map_lookup_filter_None. right. intros n _. cbn. rewrite Hu. discriminate.
    + destruct (fs w !! p) as [n |] eqn:Hp.
      * apply map_lookup_filter_Some. split; [exact Hp | exact Hu].
      * apply map_lookup_filter_None. left. exact Hp.
Qed.

Lemma delete_directory_if_exists_removes_tree_witness :
  delete_directory_if_exists "train.log" calm_world = (Return tt, calm_world)
  /\ exists w',
       delete_directory_if_exists "train"
         {| fs := fs flaky_world; faults := [None]; trace := [] |} = (Return tt, w')
       /\ faults w' = []
       /\ trace w' = [] ++ [EvRmtree "train"]
       /\ forall p : string,
            fs w' !! p = if under "train" p then None else fs flaky_world !! p.
Proof.
  split.
  - apply (delete_directory_if_exists_removes_tree "train.log" calm_world).
    discriminate.
  - apply (proj2 (delete_directory_if_exists_removes_tree "train"
             {| fs := fs flaky_world; faults := [None]; trace := [] |}) []);
      reflexivity.
Defined.

(** ** tf_contrib.py: more on the convolution stack *)

Lemma stride_maps (filters : list Z) (ks st : list (Z * Z)) :
  length filters = length ks -> length ks = length st ->
  map (fun l : Z * (Z * Z) * (Z * Z) => fst (snd l)) (zip3 filters ks st) = map fst st
  /\ map (fun l : Z * (Z * Z) * (Z * Z) => snd (snd l)) (zip3 filters ks st) = map snd st.
Proof.
  intros H1 H2. destruct (zip3_filters filters ks st H1 H2) as [_ Hs].
  split; rewrite <- Hs at 2; rewrite map_map; reflexivity.
Qed.

(** A call with at least one valid layer on a 4-D input: the loop
    result, and what the reshape is asked to do. *)
Lemma conv_layers_after_loop F filters ks st b t f c tr g :
  length filters = length ks -> length ks = length st ->
  filters <> [] ->
  Forall (fun n => 0 < n) filters ->
  Forall (fun k => 0 < fst k /\ 0 < snd k) ks ->
  Forall (fun s => 0 < fst s /\ 0 < snd s) st ->
  exists lf g1,
    last filters = Some lf /\ 0 < lf
    /\ conv_loop F [b; t; f; c] (zip3 filters ks st) tr g
       = (Return [b; reduce_axis t (map fst st); reduce_axis f (map snd st); lf], g1).
Proof.
  intros H1 H2 Hne Hf Hk Hs.
  pose proof (zip3_layer_ok filters ks st Hf Hk Hs) as Hok.
  destruct (conv_loop_ok F _ b t f c tr g Hok) as [g1 Hloop].
  destruct (zip3_filters filters ks st H1 H2) as [Hzf _].
  destruct (stride_maps filters ks st H1 H2) as [Ht Hfq].
  rewrite Hzf, Ht, Hfq in Hloop.
  destruct (last filters) as [lf |] eqn:Hlast;
    [| apply last_None in Hlast; contradiction].
  exists lf, g1. split; [reflexivity |]. split; [| exact Hloop].
  apply last_Some in Hlast as [l' ->].
  apply Forall_app in Hf as [_ Hf]. now apply Forall_cons in Hf as [Hf _].
Qed.

Lemma conv_layers_ok F filters ks st b t f c tr g :
  length filters = length ks -> length ks = length st ->
  filters <> [] -> 0 < b ->
  Forall (fun n => 0 < n) filters ->
  Forall (fun k => 0 < fst k /\ 0 < snd k) ks ->
  Forall (fun s => 0 < fst s /\ 0 < snd s) st ->
  (10 | reduce_axis t (map fst st) * reduce_axis f (map snd st)) ->
  exists lf g',
    last filters = Some lf
    /\ conv_layers F [b; t; f; c] filters ks st tr g
       = (Return ([b; reduce_axis t (map fst st) * reduce_axis f (map snd st) / 10;
                   10 * lf],
                  replicate (Z.to_nat b)
                    (reduce_axis t (map fst st) * reduce_axis f (map snd st) / 10)),
          g').
Proof.
  intros H1 H2 Hne Hb Hf Hk Hs Hdiv.
  destruct (conv_layers_after_loop F filters ks st b t f c tr g H1 H2 Hne Hf Hk Hs)
    as (lf & g1 & Hlast & Hlf & Hloop).
  exists lf. unfold conv_layers.
  apply Nat.eqb_eq in H1 as ->, H2 as ->. cbn [negb andb].
  erewrite bind_Return by exact Hloop.
  unfold tf_shape_at at 1. unfold build. py_step. cbn.
  unfold index_last. rewrite Hlast.
  unfold tf_reshape, build. py_step.
  rewrite (reshape_shape_ok b _ _ lf Hb Hlf Hdiv).
  unfold tf_shape_at, tf_tile, build. py_step. cbn.
  assert ((b <? 0) = false) as -> by lia. cbn.
  rewrite mjoin_replicate_singleton.
  eexists. split; reflexivity.
Qed.

Lemma same_out_1 (size : Z) : same_out size 1 = size.
Proof.
  unfold same_out. replace (size + 1 - 1) with size by lia. apply Z.div_1_r.
Qed.

Lemma conv_layers_default_80 F B T f1 f2 f3 tr g :
  0 < B -> 0 < f1 -> 0 < f2 -> 0 < f3 ->
  exists g',
    conv_layers F [B; T; 80; 1] [f1; f2; f3] default_kernel_sizes default_strides tr g
    = (Return ([B; (T + 1) / 2; 10 * f3], replicate (Z.to_nat B) ((T + 1) / 2)), g').
Proof.
  intros HB H1 H2 H3.
  destruct (conv_layers_ok F [f1; f2; f3] default_kernel_sizes default_strides
              B T 80 1 tr g) as (lf & g' & Hlast & Hrun);
    try reflexivity; try discriminate; try assumption.
  - repeat constructor; assumption.
  - repeat constructor.
  - repeat constructor.
  - exists (reduce_axis T (map fst default_strides)).
    replace (reduce_axis 80 (map snd default_strides)) with 10 by reflexivity.
    reflexivity.
  - cbn in Hlast. injection Hlast as <-. exists g'. rewrite Hrun.
    replace (reduce_axis 80 (map snd default_strides)) with 10 by reflexivity.
    rewrite Z.div_mul by lia.
    cbn [default_strides map fst reduce_axis]. rewrite !same_out_1.
    unfold same_out. replace (T + 2 - 1) with (T + 1) by lia.
    reflexivity.
Qed.

(** X6: with the default kernel sizes and strides and any three positive
    filter counts, a batch of [B] spectrograms of [T] frames and 80
    frequency bins gives an output of shape [B, ceil(T/2), 10 * f3] and a
    length vector of [B] entries, all [ceil(T/2)]: the stack halves the
    time axis once and leaves 10 frequencies. *)
Theorem conv_layers_default_on_80_bins :
  forall (F : Flags) (B T f1 f2 f3 : Z) (training : bool) (g : Graph),
    0 < B -> 0 < f1 -> 0 < f2 -> 0 < f3 ->
    exists g',
      conv_layers F [B; T; 80; 1] [f1; f2; f3] default_kernel_sizes default_strides
        training g
      = (Return ([B; (T + 1) / 2; 10 * f3], replicate (Z.to_nat B) ((T + 1) / 2)), g').
Proof.
  intros F B T f1 f2 f3 tr g HB H1 H2 H3.
  now apply conv_layers_default_80.
Qed.

Lemma conv_layers_default_on_80_bins_witness :
  exists g',
    conv_layers sample_flags [4; 101; 80; 1] [32; 32; 96] default_kernel_sizes
      default_strides true empty_graph
    = (Return ([4; (101 + 1) / 2; 10 * 96], replicate (Z.to_nat 4) ((101 + 1) / 2)), g').
Proof.
  apply (conv_layers_default_on_80_bins sample_flags 4 101 32 32 96 true empty_graph);
    lia.
Defined.

(** X7: whenever [conv_layers] returns, the reshape has kept the number
    of elements of the convolution stack's output, so ten times the
    reported sequence length is the product of the time and frequency
    sizes the stack has left. The reported length is the stack's time
    size only when ten frequencies are left (or no frame at all). *)
Theorem conv_layers_length_times_ten :
  forall (F : Flags) (sequences : Shape) (filters : list Z)
         (kernel_sizes strides : list (Z * Z)) (training : bool)
         (g g' : Graph) (output : Shape) (seq_length : list Z),
    conv_layers F sequences filters kernel_sizes strides training g
      = (Return (output, seq_length), g') ->
    exists batch time frequency channels length,
      fst (conv_loop F sequences (zip3 filters kernel_sizes strides) training g)
        = Return [batch; time; frequency; channels]
      /\ output = [batch; length; 10 * channels]
      /\ seq_length = replicate (Z.to_nat batch) length
      /\ 10 * length = time * frequency
      /\ num_elements output = num_elements [batch; time; frequency; channels]
      /\ (length = time <-> frequency = 10 \/ time = 0).
Proof.
  intros F sequences filters ks st tr g g' out seq Hrun.
  apply conv_layers_shapes in Hrun
    as (b & t & f & c & lf & -> & Hlast & _ & _ & Hb & Hlf & Hrest).
  cbv zeta in Hrest. destruct Hrest as (Hloop & Hdiv & -> & ->).
  set (t' := reduce_axis t (map fst st)) in *.
  set (f' := reduce_axis f (map snd st)) in *.
  set (len := b * (t' * (f' * (lf * 1))) / (b * (10 * lf))) in *.
  assert (Hten : 10 * len = t' * f').
  { assert (H : (b * lf) * (10 * len) = (b * lf) * (t' * f')) by lia.
    apply Z.mul_reg_l in H; [exact H | nia]. }
  exists b, t', f', lf, len.
  split; [exact Hloop |]. split; [reflexivity |]. split; [reflexivity |].
  split; [exact Hten |]. split.
  - cbn [num_elements fold_right]. lia.
  - split.
    + intros ->. destruct (Z.eq_dec t' 0) as [-> | Hnz]; [right; reflexivity |].
      left. nia.
    + intros [-> | ->]; lia.
Qed.

Lemma conv_layers_length_times_ten_witness :
  exists batch time frequency channels length,
    fst (conv_loop sample_flags [2; 4; 40; 1]
           (zip3 [32; 32; 96] default_kernel_sizes default_strides) true empty_graph)
      = Return [batch; time; frequency; channels]
    /\ [2; 1; 960] = [batch; length; 10 * channels]
    /\ [1; 1] = replicate (Z.to_nat batch) length
    /\ 10 * length = time * frequency
    /\ num_elements [2; 1; 960] = num_elements [batch; time; frequency; channels]
    /\ (length = time <-> frequency = 10 \/ time = 0).
Proof.
  apply (conv_layers_length_times_ten sample_flags [2; 4; 40; 1] [32; 32; 96]
           default_kernel_sizes default_strides true empty_graph
           (snd (conv_layers sample_flags [2; 4; 40; 1] [32; 32; 96]
                   default_kernel_sizes default_strides true empty_graph))).
  vm_compute. reflexivity.
Defined.



(** ** tf_contrib.py: the dense stack *)

Lemma range_nonpositive (n : Z) : n <= 0 -> range n = [].
Proof.
  intros Hn. unfold range. replace (Z.to_nat n) with O by lia. reflexivity.
Qed.

Lemma range_positive (n : Z) : 0 < n -> exists rest, range n = 0 :: rest.
Proof.
  intros Hn. unfold range.
  destruct (Z.to_nat n) as [| k] eqn:E; [lia |]. cbn. eauto.
Qed.

Lemma dense_loop_ok F units rate tr reg init act idxs : forall s g,
  (2 <= length s)%nat -> 0 < units ->
  exists g',
    dense_loop F units rate s idxs tr reg init act g
      = (Return (match idxs with [] => s | _ => removelast s ++ [units] end), g').
Proof.
  induction idxs as [| i rest IH]; intros s g Hrank Hunits.
  - exists g. reflexivity.
  - cbn [dense_loop]. unfold tf_layers_dense, tf_minimum, tf_layers_dropout, build.
    assert ((length s <? 2)%nat = false) as -> by (apply Nat.ltb_ge; lia).
    assert ((units <=? 0) = false) as -> by lia.
    py_step.
    assert (Hlen : (2 <= length (removelast s ++ [units]))%nat).
    { destruct s as [| a [| b s']]; cbn in Hrank; try lia.
      rewrite length_app. cbn. lia. }
    match goal with
    | |- context [dense_loop F units rate ?s1 rest tr reg init act ?g1] =>
        destruct (IH s1 g1 Hlen Hunits) as [g' Hg']
    end.
    exists g'. rewrite Hg'. destruct rest; [reflexivity |].
    now rewrite removelast_last.
Qed.

(** X9: [dense_layers] with a layer count of zero or less returns its
    input and builds nothing. With at least one layer, an input of at
    least two axes and a positive unit count, it returns a tensor with the
    same leading axes and [num_units_dense] on the last one, however many
    layers there are; an input of fewer than two axes is refused with a
    [ValueError] before anything is built. *)
Theorem dense_layers_shape :
  forall (F : Flags) (num_units_dense : Z) (dense_dropout_rate : Q)
         (sequences : Shape) (training : bool) (regularizer : option string)
         (initializer : Initializer) (num_layers : Z) (activation : string)
         (g : Graph),
    (num_layers <= 0 ->
     dense_layers F num_units_dense dense_dropout_rate sequences training
       regularizer initializer num_layers activation g = (Return sequences, g))
    /\ (0 < num_layers -> (2 <= length sequences)%nat -> 0 < num_units_dense ->
        exists g',
          dense_layers F num_units_dense dense_dropout_rate sequences training
            regularizer initializer num_layers activation g
          = (Return (removelast sequences ++ [num_units_dense]), g'))
    /\ (0 < num_layers -> (length sequences < 2)%nat ->
        exists msg,
          dense_layers F num_units_dense dense_dropout_rate sequences training
            regularizer initializer num_layers activation g
          = (Raise (ValueError msg), g)).
Proof.
  intros F units rate s tr reg init n act g. unfold dense_layers.
  split; [| split].
  - intros Hn. now rewrite range_nonpositive.
  - intros Hn Hrank Hunits. destruct (range_positive n Hn) as [rest ->].
    apply (dense_loop_ok F units rate tr reg init act (0 :: rest) s g Hrank Hunits).
  - intros Hn Hbad. destruct (range_positive n Hn) as [rest ->].
    cbn [dense_loop]. unfold tf_layers_dense.
    apply Nat.ltb_lt in Hbad. rewrite Hbad.
    eexists. reflexivity.
Qed.

Lemma dense_layers_shape_witness :
  dense_layers sample_flags 2048 0.1 [4; 51; 960] true None glorot_normal_initializer
    0 "relu" empty_graph = (Return [4; 51; 960], empty_graph)
  /\ (exists g',
        dense_layers sample_flags 2048 0.1 [4; 51; 960] true None
          glorot_normal_initializer 3 "relu" empty_graph
        = (Return (removelast [4; 51; 960] ++ [2048]), g'))
  /\ (exists msg,
        dense_layers sample_flags 2048 0.1 [960] true None
          glorot_normal_initializer 3 "relu" empty_graph
        = (Raise (ValueError msg), empty_graph)).
Proof.
  split; [| split].
  - apply (dense_layers_shape sample_flags 2048 0.1 [4; 51; 960] true None
             glorot_normal_initializer 0 "relu" empty_graph). lia.
  - apply (dense_layers_shape sample_flags 2048 0.1 [4; 51; 960] true None
             glorot_normal_initializer 3 "relu" empty_graph); cbn; lia.
  - apply (dense_layers_shape sample_flags 2048 0.1 [960] true None
             glorot_normal_initializer 3 "relu" empty_graph); cbn; lia.
Defined.

(** ** tf_contrib.py: more on recurrent cells *)

Lemma keep_prob_complement (dropout : Q) :
  (Py.min 1 (Py.max 0 (1 - dropout)) + clamp dropout 0 1 == 1)%Q.
Proof.
  unfold Py.min, Py.max, clamp.
  destruct (Qlt_le_dec 0 (1 - dropout));
    repeat match goal with
           | |- context [Qlt_le_dec ?a ?b] => destruct (Qlt_le_dec a b)
           end; lra.
Qed.

Lemma keep_prob_antitone (d1 d2 : Q) :
  (d1 <= d2)%Q ->
  (Py.min 1 (Py.max 0 (1 - d2)) <= Py.min 1 (Py.max 0 (1 - d1)))%Q.
Proof.
  intros Hle. unfold Py.min, Py.max.
  destruct (Qlt_le_dec 0 (1 - d2)); destruct (Qlt_le_dec 0 (1 - d1));
    repeat match goal with
           | |- context [Qlt_le_dec ?a ?b] => destruct (Qlt_le_dec a b)
           end; lra.
Qed.

(** X10: [bidirectional_cells] accepts every dropout value, also one
    outside [0, 1]: it never passes the wrapper a keep probability it
    would refuse. The two lists have the same length, both are empty
    when [num_layers] is zero or less, and in every cell the input and
    output keep probabilities are one same number between 0 and 1 that
    adds up to 1 with the dropout clamped to [0, 1]. *)
Theorem bidirectional_cells_total :
  forall (F : Flags) (num_units num_layers : Z) (dropout : Q),
    exists fw bw,
      bidirectional_cells F num_units num_layers (Some dropout) = Return (fw, bw)
      /\ length fw = length bw
      /\ length fw = Z.to_nat num_layers
      /\ Forall (fun c =>
                   output_keep_prob c = input_keep_prob c
                   /\ (0 <= input_keep_prob c <= 1)%Q
                   /\ (input_keep_prob c + clamp dropout 0 1 == 1)%Q
                   /\ seed c = random_seed F
                   /\ TfContrib.num_units (cell c) = num_units)
                (fw ++ bw).
Proof.
  intros F nu nl dropout. eexists _, _.
  split; [apply bidirectional_cells_Return |].
  rewrite !length_replicate. split; [reflexivity |]. split; [reflexivity |].
  apply Forall_app. cbn [default].
  assert (Hc : forall n, Forall (fun c =>
                output_keep_prob c = input_keep_prob c
                /\ (0 <= input_keep_prob c <= 1)%Q
                /\ (input_keep_prob c + clamp dropout 0 1 == 1)%Q
                /\ seed c = random_seed F
                /\ TfContrib.num_units (cell c) = nu)
             (replicate n
                {| cell := {| TfContrib.num_units := nu; activation := "tanh" |};
                   input_keep_prob := Py.min 1 (Py.max 0 (1 - dropout));
                   output_keep_prob := Py.min 1 (Py.max 0 (1 - dropout));
                   seed := random_seed F |})).
  { intros n. apply Forall_replicate. cbn.
    split; [reflexivity |]. split; [apply keep_prob_bounds |].
    split; [apply keep_prob_complement |]. split; reflexivity. }
  split; apply Hc.
Qed.

(** X11: more dropout never means a higher keep probability: if
    [dropout1 <= dropout2], every cell built for [dropout2] keeps with a
    probability at most that of every cell built for [dropout1]. *)
Theorem bidirectional_cells_keep_prob_antitone :
  forall (F : Flags) (num_units num_layers : Z) (dropout1 dropout2 : Q)
         (fw1 bw1 fw2 bw2 : list DropoutWrapper),
    (dropout1 <= dropout2)%Q ->
    bidirectional_cells F num_units num_layers (Some dropout1) = Return (fw1, bw1) ->
    bidirectional_cells F num_units num_layers (Some dropout2) = Return (fw2, bw2) ->
    forall c1 c2 : DropoutWrapper,
      c1 ∈ fw1 ++ bw1 -> c2 ∈ fw2 ++ bw2 ->
      (input_keep_prob c2 <= input_keep_prob c1)%Q
      /\ (output_keep_prob c2 <= output_keep_prob c1)%Q.
Proof.
  intros F nu nl d1 d2 fw1 bw1 fw2 bw2 Hle H1 H2 c1 c2 Hc1 Hc2.
  rewrite bidirectional_cells_Return in H1, H2.
  injection H1 as <- <-. injection H2 as <- <-.
  apply elem_of_app in Hc1, Hc2.
  assert (E1 : c1 = {| cell := {| TfContrib.num_units := nu; activation := "tanh" |};
                       input_keep_prob := Py.min 1 (Py.max 0 (1 - d1));
                       output_keep_prob := Py.min 1 (Py.max 0 (1 - d1));
                       seed := random_seed F |}).
  { destruct Hc1 as [H | H]; apply elem_of_replicate in H as [-> _]; reflexivity. }
  assert (E2 : c2 = {| cell := {| TfContrib.num_units := nu; activation := "tanh" |};
                       input_keep_prob := Py.min 1 (Py.max 0 (1 - d2));
                       output_keep_prob := Py.min 1 (Py.max 0 (1 - d2));
                       seed := random_seed F |}).
  { destruct Hc2 as [H | H]; apply elem_of_replicate in H as [-> _]; reflexivity. }
  subst c1 c2. cbn. split; apply keep_prob_antitone; exact Hle.
Qed.

Lemma bidirectional_cells_keep_prob_antitone_witness :
  (input_keep_prob (wrapped_cell 64 0 0) <= input_keep_prob (wrapped_cell 64 0.75 0))%Q
  /\ (output_keep_prob (wrapped_cell 64 0 0) <= output_keep_prob (wrapped_cell 64 0.75 0))%Q.
Proof.
  apply (bidirectional_cells_keep_prob_antitone sample_flags 64 2 0.25 1.5
           (replicate 2 (wrapped_cell 64 0.75 0)) (replicate 2 (wrapped_cell 64 0.75 0))
           (replicate 2 (wrapped_cell 64 0 0)) (replicate 2 (wrapped_cell 64 0 0))).
  - vm_compute. discriminate.
  - reflexivity.
  - reflexivity.
  - apply elem_of_app. left. apply elem_of_replicate. split; [reflexivity | lia].
  - apply elem_of_app. left. apply elem_of_replicate. split; [reflexivity | lia].
Defined.

(** ** tf_contrib.py: more on variables *)

(** The graph after a successful [variable_with_weight_decay]. *)
Lemma variable_with_weight_decay_graph TF_FLOAT name shape stddev wd g :
  variables g !! name = None ->
  Forall (fun d => 0 <= d) shape ->
  let var :=
    {| var_name := name; var_shape := shape;
       var_initializer := truncated_normal_initializer stddev TF_FLOAT;
       var_dtype := TF_FLOAT; var_device := "/cpu:0" |} in
  exists g',
    variable_with_weight_decay TF_FLOAT name shape stddev wd g = (Return var, g')
    /\ variables g' = <[name := var]> (variables g)
    /\ get_collection "losses" g'
       = get_collection "losses" g
         ++ match wd with
            | Some w => [Mul (L2Loss (VarRead name)) (Const w)]
            | None => []
            end.
Proof.
  intros Hfresh Hshape var.
  unfold variable_with_weight_decay, variable_on_cpu, tf_get_variable.
  rewrite (shape_accepted shape Hshape).
  unfold bind at 1. unfold bind at 1. unfold get. rewrite Hfresh.
  unfold tf_nn_l2_loss, tf_multiply.
  destruct wd as [w |];
    cbv [tf_add_to_collection build bind ret raise modify
         fst snd variables collections ops var_name];
    (eexists; split; [reflexivity |]; cbn [variables collections ops];
     split; [reflexivity |]; unfold get_collection; cbn [variables collections ops]).
  - rewrite lookup_insert_eq. cbn [default]. unfold id.
    rewrite !lookup_insert_ne by discriminate. reflexivity.
  - rewrite !lookup_insert_ne by discriminate. now rewrite app_nil_r.
Qed.

(** X12: a name that is already in the variable store is refused:
    [variable_with_weight_decay] raises [ValueError] and the graph is
    exactly as before, with no variable created and nothing added to
    'losses', whether a weight decay is given or not. In particular a
    second call with the name of a first successful call fails. *)
Theorem variable_with_weight_decay_existing_name :
  forall (TF_FLOAT name : string) (shape : list Z) (stddev : Q)
         (weight_decay : option Q) (g : Graph),
    (is_Some (variables g !! name) ->
     exists msg,
       variable_with_weight_decay TF_FLOAT name shape stddev weight_decay g
         = (Raise (ValueError msg), g))
    /\ (forall (var : TfVariable) (g' : Graph) (shape' : list Z) (stddev' : Q)
               (weight_decay' : option Q),
          variable_with_weight_decay TF_FLOAT name shape stddev weight_decay g
            = (Return var, g') ->
          exists msg,
            variable_with_weight_decay TF_FLOAT name shape' stddev' weight_decay' g'
              = (Raise (ValueError msg), g')).
Proof.
  intros TF_FLOAT name shape stddev wd g.
  split.
  { intros Hsome. apply variable_with_weight_decay_refused. now left. }
  intros var g' shape' stddev' wd' Hrun.
  apply variable_with_weight_decay_refused. left.
  destruct (variables g !! name) as [v |] eqn:Hv.
  - destruct (variable_with_weight_decay_refused TF_FLOAT name shape stddev wd g)
      as [msg Hraise]; [left; rewrite Hv; eauto |].
    rewrite Hraise in Hrun. discriminate Hrun.
  - destruct (decide (Forall (fun d => 0 <= d) shape)) as [Hshape | Hshape].
    + destruct (variable_with_weight_decay_graph TF_FLOAT name shape stddev wd g
                  Hv Hshape) as (g1 & Hrun1 & Hvars & _).
      rewrite Hrun1 in Hrun. injection Hrun as _ <-.
      rewrite Hvars, lookup_insert_eq. eauto.
    + destruct (variable_with_weight_decay_refused TF_FLOAT name shape stddev wd g)
        as [msg Hraise]; [now right |].
      rewrite Hraise in Hrun. discriminate Hrun.
Qed.

Lemma variable_with_weight_decay_existing_name_witness :
  exists msg,
    variable_with_weight_decay "float32" "b" [29] 0.1 (Some 0.004%Q)
      (snd (variable_with_weight_decay "float32" "b" [29] 0.04 None empty_graph))
    = (Raise (ValueError msg),
       snd (variable_with_weight_decay "float32" "b" [29] 0.04 None empty_graph)).
Proof.
  apply (proj2 (variable_with_weight_decay_existing_name "float32" "b" [29] 0.04
                  None empty_graph)
           {| var_name := "b"; var_shape := [29];
              var_initializer := truncated_normal_initializer 0.04 "float32";
              var_dtype := "float32"; var_device := "/cpu:0" |}).
  vm_compute. reflexivity.
Defined.

(** X13: the 'losses' collection accumulates across calls: creating two
    variables with different new names, shapes without negative
    dimension and weight decays [wd1], [wd2] one after the other leaves
    both variables in the store and appends their two penalty terms to
    'losses' in the order of the calls, after what was there. *)
Theorem variable_with_weight_decay_accumulates :
  forall (TF_FLOAT name1 name2 : string) (shape1 shape2 : list Z)
         (stddev1 stddev2 wd1 wd2 : Q) (g : Graph),
    name1 <> name2 ->
    variables g !! name1 = None ->
    variables g !! name2 = None ->
    Forall (fun d => 0 <= d) shape1 ->
    Forall (fun d => 0 <= d) shape2 ->
    exists var1 var2 g',
      (var1 <- variable_with_weight_decay TF_FLOAT name1 shape1 stddev1 (Some wd1) ;;
       var2 <- variable_with_weight_decay TF_FLOAT name2 shape2 stddev2 (Some wd2) ;;
       ret (var1, var2)) g = (Return (var1, var2), g')
      /\ var_name var1 = name1 /\ var_name var2 = name2
      /\ variables g' !! name1 = Some var1
      /\ variables g' !! name2 = Some var2
      /\ get_collection "losses" g'
         = get_collection "losses" g
           ++ [Mul (L2Loss (VarRead name1)) (Const wd1);
               Mul (L2Loss (VarRead name2)) (Const wd2)].
Proof.
  intros TF_FLOAT name1 name2 shape1 shape2 stddev1 stddev2 wd1 wd2 g Hne H1 H2 Hs1 Hs2.
  destruct (variable_with_weight_decay_graph TF_FLOAT name1 shape1 stddev1 (Some wd1) g
              H1 Hs1)
    as (g1 & Hrun1 & Hvars1 & Hlosses1).
  assert (H2' : variables g1 !! name2 = None).
  { rewrite Hvars1, lookup_insert_ne by exact Hne. exact H2. }
  destruct (variable_with_weight_decay_graph TF_FLOAT name2 shape2 stddev2 (Some wd2) g1
              H2' Hs2)
    as (g2 & Hrun2 & Hvars2 & Hlosses2).
  eexists _, _, g2.
  split.
  { erewrite bind_Return by exact Hrun1. erewrite bind_Return by exact Hrun2.
    reflexivity. }
  split; [reflexivity |]. split; [reflexivity |].
  split.
  { rewrite Hvars2, lookup_insert_ne by congruence.
    rewrite Hvars1. apply lookup_insert_eq. }
  split; [rewrite Hvars2; apply lookup_insert_eq |].
  rewrite Hlosses2, Hlosses1, <- app_assoc. reflexivity.
Qed.

Lemma variable_with_weight_decay_accumulates_witness :
  exists var1 var2 g',
    (var1 <- variable_with_weight_decay "float32" "W" [960; 29] 0.04 (Some 0.004%Q) ;;
     var2 <- variable_with_weight_decay "float32" "b" [29] 0.04 (Some 0.001%Q) ;;
     ret (var1, var2)) empty_graph = (Return (var1, var2), g')
    /\ var_name var1 = "W" /\ var_name var2 = "b"
    /\ variables g' !! "W" = Some var1
    /\ variables g' !! "b" = Some var2
    /\ get_collection "losses" g'
       = get_collection "losses" empty_graph
         ++ [Mul (L2Loss (VarRead "W")) (Const 0.004);
             Mul (L2Loss (VarRead "b")) (Const 0.001)].
Proof.
  apply (variable_with_weight_decay_accumulates "float32" "W" "b" [960; 29] [29]
           0.04 0.04 0.004 0.001 empty_graph).
  - discriminate.
  - reflexivity.
  - reflexivity.
  - repeat constructor; lia.
  - repeat constructor; lia.
Defined.

(** ** tf_contrib.py: more on the logging optimizer *)

(** X14: when the 'm' or the 'v' slot of the variable was never created,
    [AdamOptimizerLogger._apply_dense] raises on the first arithmetic that
    meets the missing slot: the update of the base class is not reached
    (the outcome is the same for every base class), no summary is
    registered and no variable is touched. *)
Theorem logger_apply_dense_missing_slot :
  forall (super1 super2 : AdamOptimizer -> Tensor -> TfVariable -> py Graph Operation)
         (self : AdamOptimizer) (grad : Tensor) (var : TfVariable) (g : Graph),
    get_slot self var "m" = None \/ get_slot self var "v" = None ->
    AdamOptimizerLogger._apply_dense super1 self grad var g
      = AdamOptimizerLogger._apply_dense super2 self grad var g
    /\ fst (AdamOptimizerLogger._apply_dense super1 self grad var g)
       = Raise (ValueError "None values not supported.")
    /\ collections (snd (AdamOptimizerLogger._apply_dense super1 self grad var g))
       = collections g
    /\ variables (snd (AdamOptimizerLogger._apply_dense super1 self grad var g))
       = variables g.
Proof.
  intros super1 super2 self grad var g Hmissing.
  unfold AdamOptimizerLogger._apply_dense, _get_beta_accumulators.
  destruct (get_slot self var "m") as [m |] eqn:Hm.
  - destruct Hmissing as [Hm' | Hv]; [discriminate Hm' |]. rewrite Hv.
    cbv [binop operand tf_sqrt tf_summary_histogram tf_summary_scalar
         tf_add_to_collection build bind ret raise modify
         fst snd variables collections ops].
    repeat split.
  - cbv [binop operand tf_sqrt tf_summary_histogram tf_summary_scalar
         tf_add_to_collection build bind ret raise modify
         fst snd variables collections ops].
    repeat split.
Qed.

Lemma logger_apply_dense_missing_slot_witness :
  fst (AdamOptimizerLogger._apply_dense AdamOptimizer._apply_dense sample_optimizer
         (Named "gradients/conv/kernel")
         {| var_name := "conv/kernel"; var_shape := [11; 41; 1; 32];
            var_initializer := glorot_normal_initializer; var_dtype := "float32";
            var_device := "/gpu:0" |} empty_graph)
    = Raise (ValueError "None values not supported.").
Proof.
  apply (logger_apply_dense_missing_slot AdamOptimizer._apply_dense
           AdamOptimizer._apply_dense sample_optimizer).
  left. reflexivity.
Defined.

(** ** storage.py: checksums *)

Section Md5_facts.

Context {hash_state : Type}.
Variable update : hash_state -> list Byte.byte -> hash_state.
Hypothesis update_nil : forall h, update h [] = h.
Hypothesis update_app : forall h a b, update (update h a) b = update h (a ++ b).

Lemma update_chunks_whole (h : hash_state) (file_handle : list Byte.byte) :
  update_chunks update h file_handle = update h file_handle.
Proof.
  funelim (update_chunks update h file_handle).
  - match goal with
    | Ht : take _ file_handle = [] |- _ => destruct file_handle; [| discriminate Ht]
    end.
    now rewrite update_nil.
  - match goal with
    | IH : update_chunks _ _ _ = update _ _, Ht : take _ file_handle = _ |- _ =>
        rewrite IH, update_app, <- Ht, take_drop
    end.
    reflexivity.
Qed.

End Md5_facts.

(** X15: for a hash object that treats successive updates like one
    update with the concatenated bytes, [md5] of a regular file is the
    digest of the whole content fed at once: reading in chunks of 4096
    bytes loses, repeats and reorders nothing, whatever the file size, and
    the loop ends. On a missing path or a directory it raises [OSError].
    The files are not changed. *)
Theorem md5_digests_whole_file :
  forall (hash_state : Type) (hashlib_md5 : hash_state)
         (update : hash_state -> list Byte.byte -> hash_state)
         (hexdigest : hash_state -> string)
         (disk : gmap string entry) (file_path : string),
    (forall h, update h [] = h) ->
    (forall h a b, update (update h a) b = update h (a ++ b)) ->
    match disk !! file_path with
    | Some (RegularFile content) =>
        md5 hashlib_md5 update hexdigest file_path disk
          = (Return (hexdigest (update hashlib_md5 content)), disk)
    | _ =>
        exists msg,
          md5 hashlib_md5 update hexdigest file_path disk = (Raise (OSError msg), disk)
    end.
Proof.
  intros hash_state init update hexdigest disk path Hnil Happ.
  unfold md5, open_rb. py_step.
  destruct (disk !! path) as [[content |] |]; cbn.
  - now rewrite update_chunks_whole.
  - eexists. reflexivity.
  - eexists. reflexivity.
Qed.

Lemma md5_digests_whole_file_witness :
  md5 0%N byte_sum pretty "data/corpus.json" sample_disk
    = (Return (pretty 520%N), sample_disk)
  /\ exists msg,
       md5 0%N byte_sum pretty "data/missing.json" sample_disk
         = (Raise (OSError msg), sample_disk).
Proof.
  assert (Hnil : forall h : N, byte_sum h [] = h) by reflexivity.
  assert (Happ : forall (h : N) a b, byte_sum (byte_sum h a) b = byte_sum h (a ++ b)).
  { intros h a b. unfold byte_sum. now rewrite fold_left_app. }
  split.
  - exact (md5_digests_whole_file N 0%N byte_sum pretty sample_disk
             "data/corpus.json" Hnil Happ).
  - exact (md5_digests_whole_file N 0%N byte_sum pretty sample_disk
             "data/missing.json" Hnil Happ).
Defined.

(** ** storage.py: checkpoint directories *)

Lemma string_app_nil_r (s : string) : s +:+ "" = s.
Proof.
  induction s as [| c s IH]; [reflexivity |].
  change (String c (s +:+ "") = String c s). now rewrite IH.
Qed.

Lemma string_app_assoc (a b c : string) : (a +:+ b) +:+ c = a +:+ (b +:+ c).
Proof.
  induction a as [| x a IH]; [reflexivity |].
  change (String x ((a +:+ b) +:+ c) = String x (a +:+ (b +:+ c))). now rewrite IH.
Qed.

Lemma string_length_app (a b : string) :
  String.length (a +:+ b) = (String.length a + String.length b)%nat.
Proof.
  induction a as [| x a IH]; [reflexivity |].
  change (S (String.length (a +:+ b)) = S (String.length a + String.length b)).
  now rewrite IH.
Qed.

Lemma prefix_length (p : string) : forall q,
  String.prefix p q = true -> (String.length p <= String.length q)%nat.
Proof.
  induction p as [| a p IH]; intros q Hpre; [cbn; lia |].
  destruct q as [| b q]; [discriminate Hpre |].
  cbn in Hpre. destruct (ascii_dec a b); [| discriminate Hpre].
  apply IH in Hpre. cbn. lia.
Qed.

Lemma parents_from_spec (s : string) : forall pre a,
  a ∈ parents_from pre s ->
  exists s1 s2, s = s1 +:+ String "/" s2 /\ a = pre +:+ s1.
Proof.
  induction s as [| c s IH]; intros pre a Hin; cbn in Hin.
  - now apply elem_of_nil in Hin.
  - apply elem_of_app in Hin as [Hin | Hin].
    + destruct (Ascii.eqb c "/") eqn:Hc; [| now apply elem_of_nil in Hin].
      apply Ascii.eqb_eq in Hc as ->.
      destruct (String.eqb pre ""); [now apply elem_of_nil in Hin |].
      apply list_elem_of_singleton in Hin as ->.
      exists "", s. split; [reflexivity |]. now rewrite string_app_nil_r.
    + apply IH in Hin as (s1 & s2 & -> & ->).
      exists (String c s1), s2. split; [reflexivity |].
      now rewrite string_app_assoc.
Qed.

(** A directory above [path] is neither [path] nor something below it. *)
Lemma parents_not_under (path a : string) :
  a ∈ parents path -> under path a = false.
Proof.
  intros Hin. apply parents_from_spec in Hin as (s1 & s2 & -> & ->).
  change ("" +:+ s1) with s1.
  assert (Hlen : String.length (s1 +:+ String "/" s2)
                 = (String.length s1 + S (String.length s2))%nat)
    by (rewrite string_length_app; reflexivity).
  unfold under. apply orb_false_intro.
  - apply bool_decide_eq_false. intros Heq.
    apply (f_equal String.length) in Heq. rewrite Hlen in Heq. lia.
  - destruct (String.prefix _ s1) eqn:Hpre; [| reflexivity].
    apply prefix_length in Hpre. rewrite string_length_app, Hlen in Hpre. lia.
Qed.

(** [make_dirs] touches neither the pending faults nor the trace, keeps
    every entry there was, and any entry it adds is a directory at one
    of the given paths. *)
Lemma make_dirs_frame op_error (paths : list string) : forall w,
  faults (snd (make_dirs op_error paths w)) = faults w
  /\ trace (snd (make_dirs op_error paths w)) = trace w
  /\ (forall p n, fs w !! p = Some n ->
                  fs (snd (make_dirs op_error paths w)) !! p = Some n)
  /\ (forall p, p ∉ paths ->
                fs (snd (make_dirs op_error paths w)) !! p = fs w !! p).
Proof.
  induction paths as [| q rest IH]; intros w.
  - cbn. repeat split; auto.
  - cbn [make_dirs]. py_step.
    destruct (fs w !! q) as [[|] |] eqn:Hq.
    + cbn. repeat split; auto.
    + destruct (IH w) as (Hf & Ht & Hk & Ho).
      split; [exact Hf |]. split; [exact Ht |]. split; [exact Hk |].
      intros p Hp. apply Ho. intros Hin. apply Hp. now right.
    + match goal with
      | |- context [make_dirs op_error rest ?w1] =>
          destruct (IH w1) as (Hf & Ht & Hk & Ho)
      end.
      cbn [fs faults trace] in *.
      split; [exact Hf |]. split; [exact Ht |]. split.
      * intros p n Hp. apply Hk. rewrite lookup_insert_ne; [exact Hp |].
        intros ->. congruence.
      * intros p Hp. rewrite Ho.
        -- apply lookup_insert_ne. intros ->. apply Hp. now left.
        -- intros Hin. apply Hp. now right.
Qed.

(** With no regular file in the way, [make_dirs] returns and all the
    given paths are directories afterwards. *)
Lemma make_dirs_ok op_error (paths : list string) : forall w,
  Forall (fun p => fs w !! p <> Some File) paths ->
  fst (make_dirs op_error paths w) = Return tt
  /\ Forall (fun p => fs (snd (make_dirs op_error paths w)) !! p = Some Directory) paths.
Proof.
  induction paths as [| q rest IH]; intros w Hnf.
  - split; [reflexivity | constructor].
  - apply Forall_cons in Hnf as [Hq Hnf]. cbn [make_dirs]. py_step.
    destruct (fs w !! q) as [[|] |] eqn:Eq; [congruence | |].
    + destruct (IH w Hnf) as [Hr Hall]. split; [exact Hr |].
      constructor; [| exact Hall].
      now apply (make_dirs_frame op_error rest w).
    + match goal with
      | |- context [make_dirs op_error rest ?w1] =>
          assert (Hnf1 : Forall (fun p => fs w1 !! p <> Some File) rest);
          [| destruct (IH w1 Hnf1) as [Hr Hall];
             pose proof (make_dirs_frame op_error rest w1) as (_ & _ & Hk & _)]
      end.
      { eapply Forall_impl; [exact Hnf |]. cbn. intros p Hp.
        destruct (decide (q = p)) as [-> | Hne].
        - rewrite lookup_insert_eq. discriminate.
        - now rewrite lookup_insert_ne. }
      split; [exact Hr |]. constructor; [| exact Hall].
      apply Hk. cbn. apply lookup_insert_eq.
Qed.

Lemma make_dirs_existing op_error (path : string) (paths : list string) : forall w,
  Forall (fun a => fs w !! a = Some Directory) paths ->
  fs w !! path = None ->
  make_dirs op_error (paths ++ [path]) w =
    (Return tt, {| fs := <[path := Directory]> (fs w); faults := faults w;
                   trace := trace w |}).
Proof.
  induction paths as [| a rest IH]; intros w Hall Hpath.
  - cbn [app make_dirs]. py_step. rewrite Hpath. reflexivity.
  - apply Forall_cons in Hall as [Ha Hall].
    cbn [app make_dirs]. py_step. rewrite Ha. now apply IH.
Qed.

(** X16: without the delete flag [maybe_delete_checkpoints] removes
    nothing: whatever the state, every entry of the file tree is still
    there afterwards, no deletion call is made (the pending faults are
    untouched) and exactly one line is printed. If the path exists,
    nothing changes at all but for the line 'Found old checkpoint data
    at: ...'. *)
Theorem maybe_delete_checkpoints_keeps_without_flag :
  forall (op_error : string -> exn) (path : string) (w : world),
    let r := maybe_delete_checkpoints op_error path false w in
    (forall p n, fs w !! p = Some n -> fs (snd r) !! p = Some n)
    /\ faults (snd r) = faults w
    /\ (exists line, trace (snd r) = trace w ++ [EvPrint line])
    /\ (is_Some (fs w !! path) ->
        r = (Return tt,
             {| fs := fs w; faults := faults w;
                trace := trace w
                         ++ [EvPrint ("Found old checkpoint data at: " +:+ path)] |})).
Proof.
  intros op_error path w r. subst r.
  unfold maybe_delete_checkpoints, tf_gfile_Exists, tf_gfile_MakeDirs, print, emit.
  py_step.
  destruct (fs w !! path) as [n |] eqn:Hp; cbn; rewrite ?Hp; cbn.
  - repeat split; eauto.
  - rewrite ?Hp.
    match goal with
    | |- context [make_dirs op_error ?ps ?w1] =>
        destruct (make_dirs_frame op_error ps w1) as (Hf & Ht & Hk & _)
    end.
    cbn [fs faults trace] in *.
    split; [exact Hk |]. split; [exact Hf |]. split; [eauto |].
    intros [? ?]. discriminate.
Qed.

Lemma maybe_delete_checkpoints_keeps_without_flag_witness :
  maybe_delete_checkpoints OSError "train" false calm_world
    = (Return tt,
       {| fs := fs calm_world; faults := faults calm_world;
          trace := trace calm_world
                   ++ [EvPrint ("Found old checkpoint data at: " +:+ "train")] |}).
Proof.
  apply (maybe_delete_checkpoints_keeps_without_flag OSError "train" calm_world).
  vm_compute. eauto.
Defined.

(** X17: with the delete flag, on a path that exists below existing
    directories and when the operating system lets the removal through,
    [maybe_delete_checkpoints] returns with the path as an empty
    directory: everything below it is gone, every entry elsewhere is
    unchanged, and one recursive deletion was made after the line
    'Deleting old checkpoint data from: ...'. *)
Theorem maybe_delete_checkpoints_empties_directory :
  forall (op_error : string -> exn) (path : string) (w : world) (n : node)
         (rest : list (option exn)),
    fs w !! path = Some n ->
    faults w = None :: rest ->
    Forall (fun a => fs w !! a = Some Directory) (parents path) ->
    exists w',
      maybe_delete_checkpoints op_error path true w = (Return tt, w')
      /\ faults w' = rest
      /\ trace w' = trace w
                    ++ [EvPrint ("Deleting old checkpoint data from: " +:+ path);
                        EvRmtree path]
      /\ forall p : string,
           fs w' !! p = if bool_decide (p = path) then Some Directory
                        else if under path p then None
                        else fs w !! p.
Proof.
  intros op_error path w n rest Hp Hf Hparents.
  unfold maybe_delete_checkpoints, tf_gfile_Exists, tf_gfile_DeleteRecursively,
    tf_gfile_MakeDirs, print, emit, next_fault.
  py_step. rewrite Hp. cbn. rewrite Hf. cbn. rewrite Hp. cbn.
  assert (Hgone : filter (fun kv : string * node => under path (fst kv) = false) (fs w)
                  !! path = None).
  { apply map_lookup_filter_None. right. intros n' _. cbn. unfold under.
    rewrite bool_decide_eq_true_2 by reflexivity. discriminate. }
  rewrite Hgone.
  rewrite make_dirs_existing; cbn [fs faults trace].
  - eexists. split; [reflexivity |]. cbn [fs faults trace].
    split; [reflexivity |]. split; [rewrite <- app_assoc; reflexivity |].
    intros p. case_bool_decide as Heq.
    + subst p. apply lookup_insert_eq.
    + rewrite lookup_insert_ne by congruence.
      destruct (under path p) eqn:Hu.
      * apply map_lookup_filter_None. right. intros n' _. cbn. rewrite Hu. discriminate.
      * destruct (fs w !! p) as [n' |] eqn:Hn.
        -- apply map_lookup_filter_Some. split; [exact Hn | exact Hu].
        -- apply map_lookup_filter_None. left. exact Hn.
  - apply Forall_forall. intros a Ha.
    apply map_lookup_filter_Some. split.
    + now apply (proj1 (Forall_forall _ _) Hparents).
    + cbn. now apply parents_not_under.
  - exact Hgone.
Qed.

Lemma maybe_delete_checkpoints_empties_directory_witness :
  exists w',
    maybe_delete_checkpoints OSError "train" true
      {| fs := fs flaky_world; faults := [None]; trace := [] |} = (Return tt, w')
    /\ faults w' = []
    /\ trace w' = [] ++ [EvPrint ("Deleting old checkpoint data from: " +:+ "train");
                         EvRmtree "train"]
    /\ forall p : string,
         fs w' !! p = if bool_decide (p = "train") then Some Directory
                      else if under "train" p then None
                      else fs flaky_world !! p.
Proof.
  apply (maybe_delete_checkpoints_empties_directory OSError "train"
           {| fs := fs flaky_world; faults := [None]; trace := [] |} Directory []).
  - reflexivity.
  - reflexivity.
  - constructor.
Defined.

(** X18: on a path that does not exist, with no regular file among the
    directories above it, [maybe_delete_checkpoints] returns for either
    value of the flag: the path and the directories above it are
    directories afterwards, every entry that existed is unchanged,
    nothing else is created, no deletion call is made and the line
    'Starting a new training run in: ...' is printed. *)
Theorem maybe_delete_checkpoints_starts_new_run :
  forall (op_error : string -> exn) (path : string) (delete : bool) (w : world),
    fs w !! path = None ->
    Forall (fun a => fs w !! a <> Some File) (parents path) ->
    exists w',
      maybe_delete_checkpoints op_error path delete w = (Return tt, w')
      /\ faults w' = faults w
      /\ trace w' = trace w
                    ++ [EvPrint ("Starting a new training run in: " +:+ path)]
      /\ fs w' !! path = Some Directory
      /\ Forall (fun a => fs w' !! a = Some Directory) (parents path)
      /\ (forall p n, fs w !! p = Some n -> fs w' !! p = Some n)
      /\ (forall p, p <> path -> p ∉ parents path -> fs w' !! p = fs w !! p).
Proof.
  intros op_error path delete w Hp Hparents.
  unfold maybe_delete_checkpoints, tf_gfile_Exists, tf_gfile_MakeDirs, print, emit.
  py_step. repeat (rewrite Hp; cbn).
  match goal with
  | |- context [make_dirs op_error ?ps ?w1] =>
      destruct (make_dirs_frame op_error ps w1) as (Hf & Ht & Hk & Ho);
      destruct (make_dirs_ok op_error ps w1) as [Hr Hall]
  end.
  { cbn [fs]. apply Forall_app. split; [exact Hparents |].
    repeat constructor. congruence. }
  cbn [fs faults trace] in *.
  destruct (make_dirs op_error _ _) as [r w'] eqn:Hrun. cbn [fst snd] in *. subst r.
  exists w'. split; [reflexivity |]. split; [exact Hf |]. split; [exact Ht |].
  apply Forall_app in Hall as [Hpar Hpath].
  split; [now apply Forall_cons in Hpath as [Hpath _] |].
  split; [exact Hpar |]. split; [exact Hk |].
  intros p Hne Hnp. apply Ho. intros Hin.
  apply elem_of_app in Hin as [Hin | Hin]; [contradiction |].
  apply list_elem_of_singleton in Hin. contradiction.
Qed.

Lemma maybe_delete_checkpoints_starts_new_run_witness :
  exists w',
    maybe_delete_checkpoints OSError "runs/ctc/0" true calm_world = (Return tt, w')
    /\ faults w' = faults calm_world
    /\ trace w' = trace calm_world
                  ++ [EvPrint ("Starting a new training run in: " +:+ "runs/ctc/0")]
    /\ fs w' !! "runs/ctc/0" = Some Directory
    /\ Forall (fun a => fs w' !! a = Some Directory) (parents "runs/ctc/0")
    /\ (forall p n, fs calm_world !! p = Some n -> fs w' !! p = Some n)
    /\ (forall p, p <> "runs/ctc/0" -> p ∉ parents "runs/ctc/0" ->
                  fs w' !! p = fs calm_world !! p).
Proof.
  apply (maybe_delete_checkpoints_starts_new_run OSError "runs/ctc/0" true calm_world).
  - reflexivity.
  - repeat constructor; discriminate.
Defined.

(** ** tf_contrib.py: bounds and edge cases *)

(** X19: in the default setup on 80 frequency bins, the sequence length
    [conv_layers] reports for [T >= 0] frames lies between half of [T]
    and [T]; it is at least 1 as soon as there is one frame. *)
Theorem conv_layers_default_length_bounds :
  forall (F : Flags) (B T f1 f2 f3 : Z) (training : bool) (g g' : Graph)
         (output : Shape) (seq_length : list Z),
    0 < B -> 0 < f1 -> 0 < f2 -> 0 < f3 -> 0 <= T ->
    conv_layers F [B; T; 80; 1] [f1; f2; f3] default_kernel_sizes default_strides
      training g = (Return (output, seq_length), g') ->
    seq_length <> []
    /\ Forall (fun n => T <= 2 * n /\ n <= T /\ (1 <= T -> 1 <= n)) seq_length.
Proof.
  intros F B T f1 f2 f3 tr g g' out seq HB H1 H2 H3 HT Hrun.
  destruct (conv_layers_default_80 F B T f1 f2 f3 tr g HB H1 H2 H3) as [g1 Hok].
  rewrite Hok in Hrun. injection Hrun as _ <- _.
  split.
  - destruct (Z.to_nat B) eqn:E; [lia | discriminate].
  - apply Forall_replicate.
    pose proof (Z.div_mod (T + 1) 2 ltac:(lia)) as Hdm.
    pose proof (Z.mod_pos_bound (T + 1) 2 ltac:(lia)) as Hmod.
    repeat split; lia.
Qed.

Lemma conv_layers_default_length_bounds_witness :
  [51; 51; 51; 51] <> []
  /\ Forall (fun n => 101 <= 2 * n /\ n <= 101 /\ (1 <= 101 -> 1 <= n)) [51; 51; 51; 51].
Proof.
  apply (conv_layers_default_length_bounds sample_flags 4 101 32 32 96 true empty_graph
           (snd (conv_layers sample_flags [4; 101; 80; 1] [32; 32; 96]
                   default_kernel_sizes default_strides true empty_graph))
           [4; 51; 960]); try lia.
  vm_compute. reflexivity.
Defined.

(** X20: [conv_layers] cannot be used with no layer at all: with three
    empty sequences the length check passes, nothing is convolved, and
    the call fails for every input, with [IndexError] at [filters[-1]]
    whenever the input has at least one axis. *)
Theorem conv_layers_without_layers_fails :
  forall (F : Flags) (sequences : Shape) (training : bool) (g : Graph),
    exists e,
      fst (conv_layers F sequences [] [] [] training g) = Raise e
      /\ e <> mismatch_error
      /\ (sequences <> [] -> exists msg, e = IndexError msg).
Proof.
  intros F s tr g. unfold conv_layers. cbn [length Nat.eqb negb andb zip3 conv_loop].
  unfold tf_shape_at, build, index_last. py_step.
  destruct s as [| b s']; cbn.
  - eexists. split; [reflexivity |]. split; [discriminate | congruence].
  - eexists. split; [reflexivity |]. split; [discriminate | eauto].
Qed.

Lemma conv_layers_without_layers_fails_witness :
  exists e,
    fst (conv_layers sample_flags [4; 101; 80; 1] [] [] [] true empty_graph) = Raise e
    /\ e <> mismatch_error
    /\ ([4; 101; 80; 1] <> [] -> exists msg, e = IndexError msg).
Proof.
  apply (conv_layers_without_layers_fails sample_flags [4; 101; 80; 1] true empty_graph).
Defined.

(** X21: [create_cell] builds a [tanh] cell of [num_units] units whose
    wrapper keeps inputs and outputs with the given probability and uses
    the seed [FLAGS.random_seed]; without a probability it keeps
    everything (1.0). It returns exactly when the probability lies in
    [0, 1]; otherwise the wrapper refuses it with a [ValueError]. *)
Theorem create_cell_keep_prob :
  forall (F : Flags) (num_units : Z) (keep_prob : Q),
    create_cell F num_units None = Return (wrapped_cell num_units 1 (random_seed F))
    /\ ((0 <= keep_prob <= 1)%Q ->
        create_cell F num_units (Some keep_prob)
          = Return (wrapped_cell num_units keep_prob (random_seed F)))
    /\ (~ (0 <= keep_prob <= 1)%Q ->
        exists msg, create_cell F num_units (Some keep_prob) = Raise (ValueError msg)).
Proof.
  intros F nu kp. split; [reflexivity |]. split.
  - intros [H0 H1]. unfold create_cell, tf_DropoutWrapper. cbn [default forallb].
    unfold id. apply Qle_bool_iff in H0, H1. rewrite H0, H1. reflexivity.
  - intros Hout. unfold create_cell, tf_DropoutWrapper. cbn [default forallb].
    unfold id.
    destruct (Qle_bool 0 kp) eqn:H0; destruct (Qle_bool kp 1) eqn:H1; cbn;
      try (eexists; reflexivity).
    exfalso. apply Hout. split; now apply Qle_bool_iff.
Qed.

Lemma create_cell_keep_prob_witness :
  create_cell sample_flags 64 (Some 0.6%Q)
    = Return (wrapped_cell 64 0.6 (random_seed sample_flags))
  /\ exists msg, create_cell sample_flags 64 (Some 1.5%Q) = Raise (ValueError msg).
Proof.
  split.
  - apply (create_cell_keep_prob sample_flags 64 0.6). split; vm_compute; discriminate.
  - apply (create_cell_keep_prob sample_flags 64 1.5).
    intros [_ H]. vm_compute in H. apply H. reflexivity.
Defined.

(** ** storage.py: a failed recursive deletion *)

(** X22: with the delete flag on an existing path, when the recursive
    deletion raises, [maybe_delete_checkpoints] lets the exception
    through right after the line 'Deleting old checkpoint data from:
    ...' and its one deletion call: [tf.gfile.MakeDirs] is not reached,
    so no entry is created, and no entry outside the path and what lies
    below it is touched. *)
Theorem maybe_delete_checkpoints_failed_deletion :
  forall (op_error : string -> exn) (path : string) (w : world) (n : node)
         (e : exn) (rest : list (option exn)),
    fs w !! path = Some n ->
    faults w = Some e :: rest ->
    exists w',
      maybe_delete_checkpoints op_error path true w = (Raise e, w')
      /\ faults w' = rest
      /\ trace w' = trace w
                    ++ [EvPrint ("Deleting old checkpoint data from: " +:+ path);
                        EvRmtree path]
      /\ (forall p : string, under path p = false -> fs w' !! p = fs w !! p)
      /\ (forall (p : string) (n' : node),
            fs w' !! p = Some n' -> fs w !! p = Some n').
Proof.
  intros op_error path w n e rest Hp Hf.
  unfold maybe_delete_checkpoints, tf_gfile_Exists, tf_gfile_DeleteRecursively,
    print, emit, next_fault.
  py_step. rewrite Hp. cbn. rewrite Hf. cbn.
  eexists. split; [reflexivity |]. cbn [fs faults trace].
  split; [reflexivity |]. split; [rewrite <- app_assoc; reflexivity |].
  split; auto.
Qed.

Lemma maybe_delete_checkpoints_failed_deletion_witness :
  exists w',
    maybe_delete_checkpoints OSError "train" true flaky_world
      = (Raise (OSError "busy"), w')
    /\ faults w' = [Some (ValueError "embedded null byte"); None]
    /\ trace w' = trace flaky_world
                  ++ [EvPrint ("Deleting old checkpoint data from: " +:+ "train");
                      EvRmtree "train"]
    /\ (forall p : string, under "train" p = false -> fs w' !! p = fs flaky_world !! p)
    /\ (forall (p : string) (n' : node),
          fs w' !! p = Some n' -> fs flaky_world !! p = Some n').
Proof.
  apply (maybe_delete_checkpoints_failed_deletion OSError "train" flaky_world Directory);
    reflexivity.
Defined.
